(** * Task / schedule domain model of the daily scheduler (src/src/models)

    Shallow embedding of the Rust model types and their operations.

    Modelling conventions:
    - an instant ([DateTime<Local>]) is a [Z] count of nanoseconds; the clock
      ([Local::now()]) is an explicit [now] argument of the operations that read it
      (one reading per call: [start] reads it for the task and again for the
      Pomodoro slice, both given the same instant here);
    - [i64], [u32] and [usize] values are [Z]; a plain [+] or [-] is the exact
      operation (with the debug profile an overflowing one panics, so every value
      the code returns is the exact one), while [saturating_sub] is written out
      with its [i64] bounds;
    - [f64] is Rocq's primitive binary64 [float], with the casts [as f64] and
      [as u32] written out. *)

From Stdlib Require Import ZArith List String Bool Lia Floats Uint63 Permutation Sorted.
Import ListNotations.
Open Scope Z_scope.

(** ** Integer and float helpers *)

Definition i64_min : Z := - 2 ^ 63.
Definition i64_max : Z := 2 ^ 63 - 1.
Definition u32_max : Z := 2 ^ 32 - 1.

(** [i64::saturating_sub]. *)
Definition saturating_sub (a b : Z) : Z := Z.max i64_min (Z.min i64_max (a - b)).

(** [x as f64] for an [i64] (or [u32], [usize]) value [x]: round to nearest. *)
Definition i64_to_f64 (z : Z) : float :=
  if z =? i64_min then PrimFloat.opp (PrimFloat.mul (PrimFloat.of_uint63 (Uint63.of_Z (2 ^ 62))) 2%float)
  else if z <? 0 then PrimFloat.opp (PrimFloat.of_uint63 (Uint63.of_Z (- z)))
  else PrimFloat.of_uint63 (Uint63.of_Z z).

(** Ceiling of the finite value [(-1)^s * m * 2^e]. *)
Definition ceil_finite (s : bool) (m : positive) (e : Z) : Z :=
  if 0 <=? e then (if s then - (Z.pos m * 2 ^ e) else Z.pos m * 2 ^ e)
  else if s then - (Z.pos m / 2 ^ (- e))
  else - ((- Z.pos m) / 2 ^ (- e)).

(** [x as u32] of an integral float value [v]: saturating at both ends. *)
Definition sat_u32 (v : Z) : Z := Z.max 0 (Z.min u32_max v).

(** [x.ceil() as u32]: NaN and negative values go to 0, large ones to [u32::MAX]. *)
Definition f64_ceil_as_u32 (x : float) : Z :=
  match Prim2SF x with
  | S754_zero _ => 0
  | S754_infinity s => if s then 0 else u32_max
  | S754_nan => 0
  | S754_finite s m e => sat_u32 (ceil_finite s m e)
  end.

(** [f64::min] (a NaN operand yields the other one). *)
Definition f64_min (x y : float) : float :=
  if PrimFloat.is_nan x then y
  else if PrimFloat.is_nan y then x
  else if PrimFloat.ltb y x then y else x.

(** [TimeDelta::num_minutes] of a difference of instants (truncating twice:
    to whole seconds, then to whole minutes). *)
Definition num_minutes (d : Z) : Z := Z.quot (Z.quot d 1000000000) 60.

Definition is_some {A} (o : option A) : bool :=
  match o with Some _ => true | None => false end.

Definition unwrap_or {A} (o : option A) (d : A) : A :=
  match o with Some x => x | None => d end.

(** ** TaskStatus (src/src/models/task.rs) *)

Inductive TaskStatus := Pending | InProgress | Completed | Paused | Skipped.

Definition TaskStatus_eqb (a b : TaskStatus) : bool :=
  match a, b with
  | Pending, Pending | InProgress, InProgress | Completed, Completed
  | Paused, Paused | Skipped, Skipped => true
  | _, _ => false
  end.

Lemma TaskStatus_eqb_eq a b : TaskStatus_eqb a b = true <-> a = b.
Proof. destruct a, b; simpl; split; congruence. Qed.

(** ** PomodoroSession (src/src/models/pomodoro.rs) *)

Module Pomodoro.

Record PomodoroSession := mkSession {
  total_pomodoros : Z;
  completed_pomodoros : Z;
  current_start : option Z;
  pomodoro_duration : Z;
  short_break : Z;
  long_break : Z
}.

Definition new (_estimated_minutes : Z) : PomodoroSession :=
  {| total_pomodoros := 1; completed_pomodoros := 0; current_start := None;
     pomodoro_duration := 25; short_break := 5; long_break := 15 |}.

Definition start_pomodoro (now : Z) (s : PomodoroSession) : PomodoroSession :=
  {| total_pomodoros := total_pomodoros s; completed_pomodoros := completed_pomodoros s;
     current_start := Some now; pomodoro_duration := pomodoro_duration s;
     short_break := short_break s; long_break := long_break s |}.

Definition complete_pomodoro (s : PomodoroSession) : PomodoroSession :=
  {| total_pomodoros := total_pomodoros s; completed_pomodoros := completed_pomodoros s + 1;
     current_start := None; pomodoro_duration := pomodoro_duration s;
     short_break := short_break s; long_break := long_break s |}.

(** [elapsed_minutes] and [remaining_minutes] read the clock: [now]. *)
Definition elapsed_minutes (now : Z) (s : PomodoroSession) : option Z :=
  option_map (fun start => num_minutes (now - start)) (current_start s).

Definition remaining_minutes (now : Z) (s : PomodoroSession) : option Z :=
  option_map (fun elapsed => Z.max (pomodoro_duration s - elapsed) 0) (elapsed_minutes now s).

Definition is_complete (s : PomodoroSession) : bool :=
  total_pomodoros s <=? completed_pomodoros s.

Definition next_break_duration (s : PomodoroSession) : Z :=
  if (completed_pomodoros s + 1) mod 4 =? 0 then long_break s else short_break s.

End Pomodoro.

(** ** Task (src/src/models/task.rs) *)

Module Task.
Import Pomodoro.

Record Task := mkTask {
  id : string;
  title : string;
  start_time : Z;
  end_time : Z;
  estimated_duration_minutes : Z;
  actual_duration_minutes : option Z;
  status : TaskStatus;
  tags : list string;
  notes : option string;
  actual_start_time : option Z;
  actual_end_time : option Z;
  custom_pomodoro_duration : option Z;
  pomodoro : option PomodoroSession
}.

(** [Task::new]; the fresh UUID is the argument [uuid]. *)
Definition new (uuid title : string) (start_time end_time : Z) : Task :=
  let duration := num_minutes (end_time - start_time) in
  {| id := uuid; title := title; start_time := start_time; end_time := end_time;
     estimated_duration_minutes := duration; actual_duration_minutes := None;
     status := Pending; tags := []; notes := None; actual_start_time := None;
     actual_end_time := None; custom_pomodoro_duration := None; pomodoro := None |}.

(** Field-wise copy of a task with its mutable execution fields replaced. *)
Definition with_exec (t : Task) (st : TaskStatus) (ad : option Z) (ast aet : option Z)
    (p : option PomodoroSession) : Task :=
  {| id := id t; title := title t; start_time := start_time t; end_time := end_time t;
     estimated_duration_minutes := estimated_duration_minutes t;
     actual_duration_minutes := ad; status := st; tags := tags t; notes := notes t;
     actual_start_time := ast; actual_end_time := aet;
     custom_pomodoro_duration := custom_pomodoro_duration t; pomodoro := p |}.

(** The session built on the first [start]: [PomodoroSession::new], then the
    custom length and the recomputed [total_pomodoros]. *)
Definition first_session (estimated : Z) (pomodoro_duration : Z) : PomodoroSession :=
  let session := Pomodoro.new estimated in
  {| total_pomodoros :=
       Z.max (f64_ceil_as_u32 (PrimFloat.div (i64_to_f64 estimated) (i64_to_f64 pomodoro_duration))) 1;
     completed_pomodoros := completed_pomodoros session;
     current_start := current_start session;
     Pomodoro.pomodoro_duration := pomodoro_duration;
     short_break := short_break session; long_break := long_break session |}.

Definition start (now : Z) (t : Task) : Task :=
  let p :=
    match pomodoro t with
    | None =>
        let pomodoro_duration := unwrap_or (custom_pomodoro_duration t) 25 in
        Some (start_pomodoro now (first_session (estimated_duration_minutes t) pomodoro_duration))
    | Some session => Some (start_pomodoro now session)
    end in
  with_exec t InProgress (actual_duration_minutes t) (Some now) (actual_end_time t) p.

Definition pause (t : Task) : Task :=
  if TaskStatus_eqb (status t) InProgress then
    let p :=
      match pomodoro t with
      | Some session =>
          Some {| total_pomodoros := total_pomodoros session;
                  completed_pomodoros := completed_pomodoros session;
                  current_start := None;
                  Pomodoro.pomodoro_duration := Pomodoro.pomodoro_duration session;
                  short_break := short_break session; long_break := long_break session |}
      | None => None
      end in
    with_exec t Paused (actual_duration_minutes t) (actual_start_time t) (actual_end_time t) p
  else t.

Definition resume (now : Z) (t : Task) : Task :=
  if TaskStatus_eqb (status t) Paused then
    let p :=
      match pomodoro t with
      | Some session => Some (start_pomodoro now session)
      | None => None
      end in
    with_exec t InProgress (actual_duration_minutes t) (actual_start_time t) (actual_end_time t) p
  else t.

Definition complete (now : Z) (t : Task) : Task :=
  let aet := Some now in
  let ad :=
    match actual_start_time t with
    | Some start => Some (num_minutes (now - start))
    | None => actual_duration_minutes t
    end in
  with_exec t Completed ad (actual_start_time t) aet (pomodoro t).

Definition skip (t : Task) : Task :=
  with_exec t Skipped (actual_duration_minutes t) (actual_start_time t) (actual_end_time t) (pomodoro t).

End Task.

(** ** Time accountability (src/src/models/accountability.rs) *)

Module TimeAccountability.
Import Task.

Record TimeAccountability := mkTA {
  earned_time : Z;
  wasted_time : Z;
  bonus_time : Z;
  penalty_time : Z
}.

Definition from_task (task : Task) : TimeAccountability :=
  let estimated := estimated_duration_minutes task in
  match status task with
  | Completed =>
      match actual_duration_minutes task with
      | Some actual =>
          if actual <=? estimated then
            let bonus := estimated - actual in
            {| earned_time := estimated; wasted_time := 0; bonus_time := bonus; penalty_time := 0 |}
          else
            let penalty := actual - estimated in
            {| earned_time := saturating_sub estimated penalty; wasted_time := 0;
               bonus_time := 0; penalty_time := penalty |}
      | None =>
          {| earned_time := estimated; wasted_time := 0; bonus_time := 0; penalty_time := 0 |}
      end
  | Skipped =>
      {| earned_time := 0; wasted_time := estimated; bonus_time := 0; penalty_time := 0 |}
  | Pending | InProgress | Paused =>
      {| earned_time := 0; wasted_time := 0; bonus_time := 0; penalty_time := 0 |}
  end.

Definition net_earned (a : TimeAccountability) : Z :=
  earned_time a + bonus_time a - penalty_time a.

End TimeAccountability.

Module DailyAccountability.
Import Task TimeAccountability.

Record DailyAccountability := mkDA {
  date : Z;
  total_planned : Z;
  total_earned : Z;
  total_wasted : Z;
  total_bonus : Z;
  total_penalty : Z
}.

Definition new (date : Z) : DailyAccountability :=
  {| date := date; total_planned := 0; total_earned := 0; total_wasted := 0;
     total_bonus := 0; total_penalty := 0 |}.

(** One iteration of the [for task in tasks] loop of [from_tasks]. *)
Definition add_task_step (acc : DailyAccountability) (task : Task) : DailyAccountability :=
  let perf := from_task task in
  {| date := date acc;
     total_planned := total_planned acc + estimated_duration_minutes task;
     total_earned := total_earned acc + earned_time perf;
     total_wasted := total_wasted acc + wasted_time perf;
     total_bonus := total_bonus acc + bonus_time perf;
     total_penalty := total_penalty acc + penalty_time perf |}.

Definition from_tasks (date : Z) (tasks : list Task) : DailyAccountability :=
  fold_left add_task_step tasks (new date).

Definition efficiency_score (a : DailyAccountability) : float :=
  if total_planned a =? 0 then 0%float
  else
    let net_earned := total_earned a + total_bonus a - total_penalty a in
    PrimFloat.mul (PrimFloat.div (i64_to_f64 net_earned) (i64_to_f64 (total_planned a))) 100%float.

Definition net_earned (a : DailyAccountability) : Z :=
  total_earned a + total_bonus a - total_penalty a.

Definition grade (a : DailyAccountability) : string :=
  let score := efficiency_score a in
  if PrimFloat.leb 95%float score then "A+"
  else if PrimFloat.leb 90%float score then "A"
  else if PrimFloat.leb 80%float score then "B"
  else if PrimFloat.leb 70%float score then "C"
  else if PrimFloat.leb 60%float score then "D"
  else "F".

End DailyAccountability.

(** ** Schedule (src/src/models/schedule.rs) *)

Inductive ChangeType := TaskCreated | TaskUpdated | TaskDeleted | TaskMoved | ScheduleShifted.

Record ScheduleChange := mkChange {
  timestamp : Z;
  change_type : ChangeType;
  task_title : option string;
  old_time : option string;
  new_time : option string;
  affected_tasks_count : option Z;
  description : string
}.

Inductive Result (A E : Type) := Ok (a : A) | Err (e : E).
Arguments Ok {A E} a.
Arguments Err {A E} e.

(** The record of [Schedule], in its own name space: several of its cached
    fields share their names with the methods of [Schedule]. *)
Module ScheduleData.

Record Schedule := mkSchedule {
  date : Z;
  tasks : list Task.Task;
  changes : list ScheduleChange;
  completion_rate : option float;
  efficiency_score : option float;
  total_earned : option Z;
  total_wasted : option Z;
  total_bonus : option Z;
  total_penalty : option Z
}.

End ScheduleData.

Module Schedule.
Import Task.

Definition new (date : Z) : ScheduleData.Schedule :=
  {| ScheduleData.date := date; ScheduleData.tasks := []; ScheduleData.changes := [];
     ScheduleData.completion_rate := None; ScheduleData.efficiency_score := None;
     ScheduleData.total_earned := None; ScheduleData.total_wasted := None;
     ScheduleData.total_bonus := None; ScheduleData.total_penalty := None |}.

Definition is_completed (t : Task) : bool := TaskStatus_eqb (status t) Completed.

Definition sum (l : list Z) : Z := fold_left Z.add l 0.

Definition completion_rate (s : ScheduleData.Schedule) : float :=
  match ScheduleData.tasks s with
  | [] => 0%float
  | ts =>
      let completed := Z.of_nat (List.length (filter is_completed ts)) in
      PrimFloat.mul (PrimFloat.div (i64_to_f64 completed) (i64_to_f64 (Z.of_nat (List.length ts)))) 100%float
  end.

Definition total_earned (s : ScheduleData.Schedule) : Z :=
  sum (map (fun t =>
              let estimated := estimated_duration_minutes t in
              let actual := unwrap_or (actual_duration_minutes t) estimated in
              if actual <=? estimated then estimated
              else Z.max (estimated - (actual - estimated)) 0)
           (filter is_completed (ScheduleData.tasks s))).

(** [total_wasted] reads the clock: [now] is that reading. *)
Definition total_wasted (now : Z) (s : ScheduleData.Schedule) : Z :=
  sum (map (fun t =>
              if TaskStatus_eqb (status t) Skipped then estimated_duration_minutes t
              else estimated_duration_minutes t)
           (filter (fun t => negb (TaskStatus_eqb (status t) Completed) && (end_time t <? now))
                   (ScheduleData.tasks s))).

Definition total_bonus (s : ScheduleData.Schedule) : Z :=
  sum (flat_map (fun t =>
                   let estimated := estimated_duration_minutes t in
                   match actual_duration_minutes t with
                   | None => []
                   | Some actual => if actual <? estimated then [estimated - actual] else []
                   end)
                (filter is_completed (ScheduleData.tasks s))).

Definition total_penalty (s : ScheduleData.Schedule) : Z :=
  sum (flat_map (fun t =>
                   let estimated := estimated_duration_minutes t in
                   match actual_duration_minutes t with
                   | None => []
                   | Some actual => if estimated <? actual then [actual - estimated] else []
                   end)
                (filter is_completed (ScheduleData.tasks s))).

Definition efficiency_score (s : ScheduleData.Schedule) : float :=
  let total_planned := sum (map estimated_duration_minutes (ScheduleData.tasks s)) in
  if total_planned =? 0 then 0%float
  else
    let earned := i64_to_f64 (total_earned s) in
    let planned := i64_to_f64 total_planned in
    f64_min (PrimFloat.mul (PrimFloat.div earned planned) 100%float) 100%float.

Definition calculate_stats (s : ScheduleData.Schedule) : ScheduleData.Schedule :=
  {| ScheduleData.date := ScheduleData.date s;
     ScheduleData.tasks := ScheduleData.tasks s;
     ScheduleData.changes := ScheduleData.changes s;
     ScheduleData.completion_rate := Some (completion_rate s);
     ScheduleData.efficiency_score := Some (efficiency_score s);
     ScheduleData.total_earned := Some (total_earned s);
     ScheduleData.total_wasted := ScheduleData.total_wasted s;
     ScheduleData.total_bonus := Some (total_bonus s);
     ScheduleData.total_penalty := Some (total_penalty s) |}.

Definition has_time_conflict (task1 task2 : Task) : bool :=
  ((start_time task2 <=? start_time task1) && (start_time task1 <? end_time task2))
  || ((start_time task2 <? end_time task1) && (end_time task1 <=? end_time task2))
  || ((start_time task1 <=? start_time task2) && (end_time task2 <=? end_time task1)).

(** The [for existing_task in &self.tasks] loop of [add_task]: the first
    existing task that conflicts with [task]. *)
Fixpoint first_conflict (task : Task) (existing : list Task) : option Task :=
  match existing with
  | [] => None
  | existing_task :: rest =>
      if has_time_conflict task existing_task then Some existing_task
      else first_conflict task rest
  end.

Definition add_task (s : ScheduleData.Schedule) (task : Task)
    : Result ScheduleData.Schedule string :=
  match first_conflict task (ScheduleData.tasks s) with
  | Some existing_task => Err ("Time conflict with task: " ++ title existing_task)%string
  | None =>
      Ok {| ScheduleData.date := ScheduleData.date s;
            ScheduleData.tasks := ScheduleData.tasks s ++ [task];
            ScheduleData.changes := ScheduleData.changes s;
            ScheduleData.completion_rate := ScheduleData.completion_rate s;
            ScheduleData.efficiency_score := ScheduleData.efficiency_score s;
            ScheduleData.total_earned := ScheduleData.total_earned s;
            ScheduleData.total_wasted := ScheduleData.total_wasted s;
            ScheduleData.total_bonus := ScheduleData.total_bonus s;
            ScheduleData.total_penalty := ScheduleData.total_penalty s |}
  end.

(** The schedule [s] with its task list replaced by [ts]. *)
Definition with_tasks (s : ScheduleData.Schedule) (ts : list Task) : ScheduleData.Schedule :=
  {| ScheduleData.date := ScheduleData.date s;
     ScheduleData.tasks := ts;
     ScheduleData.changes := ScheduleData.changes s;
     ScheduleData.completion_rate := ScheduleData.completion_rate s;
     ScheduleData.efficiency_score := ScheduleData.efficiency_score s;
     ScheduleData.total_earned := ScheduleData.total_earned s;
     ScheduleData.total_wasted := ScheduleData.total_wasted s;
     ScheduleData.total_bonus := ScheduleData.total_bonus s;
     ScheduleData.total_penalty := ScheduleData.total_penalty s |}.

(** [Iterator::position]. *)
Fixpoint position {A} (p : A -> bool) (l : list A) : option nat :=
  match l with
  | [] => None
  | x :: rest => if p x then Some O else option_map S (position p rest)
  end.

Definition has_id (task_id : string) (t : Task) : bool := String.eqb (id t) task_id.

(** [find_task_mut(task_id)] followed by the in-place update [f] of the task
    found; [None] when no task has the id. *)
Fixpoint apply_first (p : Task -> bool) (f : Task -> Task) (l : list Task) : option (list Task) :=
  match l with
  | [] => None
  | x :: rest => if p x then Some (f x :: rest) else option_map (cons x) (apply_first p f rest)
  end.

Definition modify_task (s : ScheduleData.Schedule) (task_id : string) (f : Task -> Task)
    : option ScheduleData.Schedule :=
  option_map (with_tasks s) (apply_first (has_id task_id) f (ScheduleData.tasks s)).

(** [remove_task]: the schedule after the call and the returned task;
    [Vec::remove(pos)] at the found position (always in bounds there). *)
Definition remove_task (s : ScheduleData.Schedule) (task_id : string)
    : ScheduleData.Schedule * option Task :=
  match position (has_id task_id) (ScheduleData.tasks s) with
  | Some pos =>
      match nth_error (ScheduleData.tasks s) pos with
      | Some t => (with_tasks s (firstn pos (ScheduleData.tasks s) ++ skipn (S pos) (ScheduleData.tasks s)),
                   Some t)
      | None => (s, None)
      end
  | None => (s, None)
  end.

Definition find_task (s : ScheduleData.Schedule) (task_id : string) : option Task :=
  find (has_id task_id) (ScheduleData.tasks s).

Definition get_current_task (s : ScheduleData.Schedule) : option Task :=
  find (fun t => TaskStatus_eqb (status t) InProgress) (ScheduleData.tasks s).

(** [min_by_key(|t| t.start_time)]: on equal keys the earlier element is kept. *)
Definition min_by_start (l : list Task) : option Task :=
  match l with
  | [] => None
  | x :: rest => Some (fold_left (fun m y => if start_time y <? start_time m then y else m) rest x)
  end.

Definition get_next_task (s : ScheduleData.Schedule) : option Task :=
  min_by_start (filter (fun t => TaskStatus_eqb (status t) Pending) (ScheduleData.tasks s)).

(** [sort_by_key(|t| t.start_time)] is a stable sort, so its result is the
    one of any stable sort: here insertion, each task placed after the tasks
    already placed with a start time not later than its own. *)
Fixpoint insert_by_start (t : Task) (l : list Task) : list Task :=
  match l with
  | [] => [t]
  | u :: rest => if start_time t <? start_time u then t :: u :: rest else u :: insert_by_start t rest
  end.

Definition sort_by_time (s : ScheduleData.Schedule) : ScheduleData.Schedule :=
  with_tasks s (fold_left (fun acc t => insert_by_start t acc) (ScheduleData.tasks s) []).

End Schedule.

(** ** StreakInfo (src/src/models/stats.rs) *)

Module StreakInfo.

Record StreakInfo := mkStreak {
  current_streak : Z;
  best_streak : Z;
  last_update : Z
}.

Definition new (now : Z) : StreakInfo :=
  {| current_streak := 0; best_streak := 0; last_update := now |}.

Definition update (now : Z) (completion_rate : float) (s : StreakInfo) : StreakInfo :=
  if PrimFloat.leb 70%float completion_rate then
    let current := current_streak s + 1 in
    let best := if best_streak s <? current then current else best_streak s in
    {| current_streak := current; best_streak := best; last_update := now |}
  else
    {| current_streak := 0; best_streak := best_streak s; last_update := now |}.

Definition reset (now : Z) (s : StreakInfo) : StreakInfo :=
  {| current_streak := 0; best_streak := best_streak s; last_update := now |}.

End StreakInfo.

(** ** Task lifecycle as a sequence of operations

    The presentation layers drive a task through these calls, each reading the
    clock once. *)

Inductive TaskOp := OpStart (now : Z) | OpPause | OpResume (now : Z) | OpComplete (now : Z) | OpSkip.

Definition step (t : Task.Task) (op : TaskOp) : Task.Task :=
  match op with
  | OpStart now => Task.start now t
  | OpPause => Task.pause t
  | OpResume now => Task.resume now t
  | OpComplete now => Task.complete now t
  | OpSkip => Task.skip t
  end.

Definition run (t : Task.Task) (ops : list TaskOp) : Task.Task := fold_left step ops t.

(** The status after each operation of [ops], applied from [t]. *)
Fixpoint statuses_along (t : Task.Task) (ops : list TaskOp) : list TaskStatus :=
  match ops with
  | [] => []
  | op :: rest => Task.status (step t op) :: statuses_along (step t op) rest
  end.

(** Whether the status of [t] is, or becomes along [ops], [InProgress]. *)
Definition ever_in_progress (t : Task.Task) (ops : list TaskOp) : bool :=
  existsb (fun st => TaskStatus_eqb st InProgress) (Task.status t :: statuses_along t ops).

(** Whether [ops] has a [complete] call after a [start] call ([started] tells
    whether a [start] came before [ops]). *)
Fixpoint completed_after_start (started : bool) (ops : list TaskOp) : bool :=
  match ops with
  | [] => false
  | OpStart _ :: rest => completed_after_start true rest
  | OpComplete _ :: rest => started || completed_after_start started rest
  | _ :: rest => completed_after_start started rest
  end.

(** A sequence of streak evaluations, each a clock reading and a completion rate. *)
Definition update_all (s : StreakInfo.StreakInfo) (us : list (Z * float)) : StreakInfo.StreakInfo :=
  fold_left (fun st u => StreakInfo.update (fst u) (snd u) st) us s.

(** The half-open overlap of the planned intervals [start_time, end_time). *)
Definition half_open_overlap (t1 t2 : Task.Task) : bool :=
  (Task.start_time t1 <? Task.end_time t2) && (Task.start_time t2 <? Task.end_time t1).




(** Repeated [add_task] calls, a rejected task leaving the schedule as it was. *)
Definition add_all (s : ScheduleData.Schedule) (ts : list Task.Task) : ScheduleData.Schedule :=
  fold_left (fun s t => match Schedule.add_task s t with Ok s' => s' | Err _ => s end) ts s.

(** No task of [l] overlaps (half-open) a task after it in [l]. *)
Definition no_overlap (l : list Task.Task) : Prop :=
  ForallOrdPairs (fun a b => half_open_overlap a b = false) l.

Definition well_formed (t : Task.Task) : Prop := Task.start_time t < Task.end_time t.

(** Streak evaluations: an [update] or a [reset], each with its clock reading. *)
Inductive StreakEvent := EvUpdate (now : Z) (rate : float) | EvReset (now : Z).

Definition streak_step (s : StreakInfo.StreakInfo) (ev : StreakEvent) : StreakInfo.StreakInfo :=
  match ev with
  | EvUpdate now rate => StreakInfo.update now rate s
  | EvReset now => StreakInfo.reset now s
  end.

(** ** Command-line flows (src/src/cli/commands.rs)

    The schedule-side part of the commands: the schedule loaded for today is
    the argument, the saved one is the [Ok] result; the clock readings are
    explicit. An [unwrap] of [None] is the panic message as an error. *)

Definition unwrap_none : string := "called `Option::unwrap()` on a `None` value"%string.

(** [add_task] of the command line, from the built task on. *)
Definition cli_add_task (s : ScheduleData.Schedule) (task : Task.Task)
    : Result ScheduleData.Schedule string :=
  if Task.end_time task <=? Task.start_time task then Err "End time must be after start time"%string
  else
    match Schedule.add_task s task with
    | Ok s' => Ok (Schedule.sort_by_time s')
    | Err e => Err e
    end.

(** Repeated [sched add] commands, a refused one leaving the schedule as it was. *)
Definition cli_add_all (s : ScheduleData.Schedule) (ts : list Task.Task) : ScheduleData.Schedule :=
  fold_left (fun s t => match cli_add_task s t with Ok s' => s' | Err _ => s end) ts s.

Definition cli_start_task (now : Z) (id : option string) (s : ScheduleData.Schedule)
    : Result ScheduleData.Schedule string :=
  let task_id :=
    match id with
    | Some id => Ok id
    | None =>
        match Schedule.get_next_task s with
        | Some t => Ok (Task.id t)
        | None => Err "No pending tasks"%string
        end
    end in
  match task_id with
  | Err e => Err e
  | Ok task_id =>
      match Schedule.modify_task s task_id (Task.start now) with
      | Some s' => Ok s'
      | None => Err "Task not found"%string
      end
  end.

(** The common shape of [pause_task], [complete_task] and [pomodoro complete]:
    the current task, found again by its id, updated by [f]. *)
Definition on_current_task (f : Task.Task -> Result Task.Task string) (s : ScheduleData.Schedule)
    : Result ScheduleData.Schedule string :=
  match Schedule.get_current_task s with
  | None => Err "No task is currently in progress"%string
  | Some current =>
      match find (Schedule.has_id (Task.id current)) (ScheduleData.tasks s) with
      | None => Err unwrap_none
      | Some task =>
          match f task with
          | Err e => Err e
          | Ok task' =>
              match Schedule.modify_task s (Task.id current) (fun _ => task') with
              | Some s' => Ok s'
              | None => Err unwrap_none
              end
          end
      end
  end.

Definition cli_pause_task (s : ScheduleData.Schedule) : Result ScheduleData.Schedule string :=
  on_current_task (fun t => Ok (Task.pause t)) s.

Definition cli_complete_task (now : Z) (s : ScheduleData.Schedule) : Result ScheduleData.Schedule string :=
  on_current_task (fun t => Ok (Task.complete now t)) s.

(** [pomodoro complete]: [complete_pomodoro] on the session of the current task. *)
Definition cli_pomodoro_complete (s : ScheduleData.Schedule) : Result ScheduleData.Schedule string :=
  on_current_task
    (fun t =>
       match Task.pomodoro t with
       | None => Err "No Pomodoro session active"%string
       | Some p =>
           Ok (Task.with_exec t (Task.status t) (Task.actual_duration_minutes t)
                 (Task.actual_start_time t) (Task.actual_end_time t) (Some (Pomodoro.complete_pomodoro p)))
       end) s.

(** The planned fields of a task: everything but its execution record. *)
Definition plan_fields (t : Task.Task) :=
  (Task.id t, Task.title t, Task.start_time t, Task.end_time t, Task.estimated_duration_minutes t,
   Task.tags t, Task.notes t, Task.custom_pomodoro_duration t).

(** A running task has a running slice, a paused one a stopped slice. *)
Definition slice_inv (t : Task.Task) : bool :=
  match Task.status t, Task.pomodoro t with
  | InProgress, Some p => is_some (Pomodoro.current_start p)
  | Paused, Some p => negb (is_some (Pomodoro.current_start p))
  | InProgress, None | Paused, None => false
  | _, _ => true
  end.

Definition start_le (a b : Task.Task) : Prop := Task.start_time a <= Task.start_time b.
Definition ends_before (a b : Task.Task) : Prop := Task.end_time a <= Task.start_time b.

(** One minute, in the nanoseconds of an instant. *)
Definition minute : Z := 60000000000.

(** * Properties *)

Ltac unfold_task_ops :=
  unfold Task.start, Task.pause, Task.resume, Task.complete, Task.skip, Task.with_exec in *.

(** A task planned 09:00-10:00, started at 09:00, completed at 11:30. *)
Definition late_review : Task.Task :=
  Task.complete (690 * minute) (Task.start (540 * minute) (Task.new "t1" "Review" (540 * minute) (600 * minute))).

(** A schedule holding [ts], all other fields empty. *)
Definition schedule_of (ts : list Task.Task) : ScheduleData.Schedule :=
  {| ScheduleData.date := 0; ScheduleData.tasks := ts; ScheduleData.changes := [];
     ScheduleData.completion_rate := None; ScheduleData.efficiency_score := None;
     ScheduleData.total_earned := None; ScheduleData.total_wasted := None;
     ScheduleData.total_bonus := None; ScheduleData.total_penalty := None |}.

(** A task planned [h1:m1]-[h2:m2] of day 0. *)
Definition task_at (uuid title : string) (h1 m1 h2 m2 : Z) : Task.Task :=
  Task.new uuid title ((60 * h1 + m1) * minute) ((60 * h2 + m2) * minute).

(** Three tasks of which the second overlaps both others. *)
Definition day_plan : list Task.Task :=
  [task_at "a" "Mail" 9 0 10 0; task_at "b" "Code" 9 30 10 30; task_at "c" "Call" 10 0 11 0].

(** A pending task 09:00-10:00 and a task started at 10:00. *)
Definition busy_day : ScheduleData.Schedule :=
  schedule_of [task_at "a" "Mail" 9 0 10 0; Task.start (600 * minute) (task_at "b" "Code" 10 0 11 0)].

(** A task planned 09:00-10:00, started at 09:00, completed at 10:30. *)
Definition slow_mail : Task.Task :=
  Task.complete (630 * minute) (Task.start (540 * minute) (task_at "a" "Mail" 9 0 10 0)).


(** ** C1 *)

(** C1 (code_bug): [TimeAccountability::from_task] on a completed task whose
    overrun exceeds its estimate (estimated 60, actual 150, overrun 90) credits
    earned = 60 - 90 = -30, not max(0, 60 - 90) = 0: [saturating_sub] on [i64]
    saturates at [i64::MIN], not at 0. *)
Theorem from_task_overrun_earned_negative :
  Task.estimated_duration_minutes late_review = 60 /\
  Task.actual_duration_minutes late_review = Some 150 /\
  Task.status late_review = Completed /\
  TimeAccountability.from_task late_review =
    {| TimeAccountability.earned_time := -30; TimeAccountability.wasted_time := 0;
       TimeAccountability.bonus_time := 0; TimeAccountability.penalty_time := 90 |}.
Proof. vm_compute. repeat split. Qed.

(** ** C10 *)

(** C10: [Task::pause] on a task that is not [InProgress], and [Task::resume]
    on a task that is not [Paused], leave the whole task unchanged (both return
    unit, so no error is signalled). *)
Theorem pause_resume_illegal_noop :
  (forall t, Task.status t <> InProgress -> Task.pause t = t) /\
  (forall now t, Task.status t <> Paused -> Task.resume now t = t).
Proof.
  split.
  - intros t H. unfold Task.pause.
    destruct (TaskStatus_eqb (Task.status t) InProgress) eqn:E; [|reflexivity].
    apply TaskStatus_eqb_eq in E. contradiction.
  - intros now t H. unfold Task.resume.
    destruct (TaskStatus_eqb (Task.status t) Paused) eqn:E; [|reflexivity].
    apply TaskStatus_eqb_eq in E. contradiction.
Qed.

Lemma pause_resume_illegal_noop_witness :
  let t := Task.new "t2" "Write" (540 * minute) (600 * minute) in
  (Task.status t <> InProgress /\ Task.pause t = t) /\
  (Task.status t <> Paused /\ Task.resume (550 * minute) t = t).
Proof.
  split; split.
  - discriminate.
  - apply (proj1 pause_resume_illegal_noop). discriminate.
  - discriminate.
  - apply (proj2 pause_resume_illegal_noop). discriminate.
Defined.

(** ** C5 *)

(** C5: [Task::complete] from any state sets the status to [Completed] and
    [actual_end_time] to now; the actual duration becomes the whole minutes
    between [actual_start_time] and now when the task was started, and is left
    as it was (so absent when it was absent) when it never was. *)
Theorem complete_sets_end_and_duration (now : Z) (t : Task.Task) :
  Task.status (Task.complete now t) = Completed /\
  Task.actual_end_time (Task.complete now t) = Some now /\
  Task.actual_duration_minutes (Task.complete now t) =
    match Task.actual_start_time t with
    | Some start => Some (num_minutes (now - start))
    | None => Task.actual_duration_minutes t
    end.
Proof.
  unfold_task_ops; simpl. repeat split.
Qed.

(** ** C2 *)

Ltac z_cases :=
  repeat match goal with
         | |- context [?a <=? ?b] => destruct (Z.leb_spec a b)
         | |- context [?a <? ?b] => destruct (Z.ltb_spec a b)
         end; simpl; try reflexivity; lia.

(** On nonempty intervals the three-case test of [has_time_conflict] is the
    half-open overlap test. *)
Lemma has_time_conflict_half_open (t1 t2 : Task.Task) :
  Task.start_time t1 < Task.end_time t1 ->
  Task.start_time t2 < Task.end_time t2 ->
  Schedule.has_time_conflict t1 t2 = half_open_overlap t1 t2.
Proof.
  intros H1 H2. unfold Schedule.has_time_conflict, half_open_overlap. z_cases.
Qed.

Lemma first_conflict_find (task : Task.Task) (l : list Task.Task) :
  Task.start_time task < Task.end_time task ->
  Forall (fun t => Task.start_time t < Task.end_time t) l ->
  Schedule.first_conflict task l = find (half_open_overlap task) l.
Proof.
  intros Hnew Hl. induction Hl as [|e l He Hl IH]; simpl; [reflexivity|].
  rewrite has_time_conflict_half_open by assumption.
  destruct (half_open_overlap task e); [reflexivity | exact IH].
Qed.

(** C2 (corrected): when the new task and every task of the schedule have a
    nonempty planned interval (start < end), [Schedule::add_task] rejects the
    new task with a conflict error naming the first existing task, in list
    order, whose half-open interval overlaps it (s1 < e2 and s2 < e1), and
    otherwise succeeds and appends it. *)
Theorem add_task_half_open_first_conflict (s : ScheduleData.Schedule) (task : Task.Task)
    (Hnew : Task.start_time task < Task.end_time task)
    (Hold : Forall (fun t => Task.start_time t < Task.end_time t) (ScheduleData.tasks s)) :
  match find (half_open_overlap task) (ScheduleData.tasks s) with
  | Some existing => Schedule.add_task s task = Err ("Time conflict with task: " ++ Task.title existing)%string
  | None => exists s', Schedule.add_task s task = Ok s' /\
                       ScheduleData.tasks s' = ScheduleData.tasks s ++ [task]
  end.
Proof.
  unfold Schedule.add_task. rewrite first_conflict_find by assumption.
  destruct (find (half_open_overlap task) (ScheduleData.tasks s)).
  - reflexivity.
  - eexists. split; [reflexivity | reflexivity].
Qed.

(** A task 10:00-11:00 abutting an existing 09:00-10:00 task is accepted. *)
Lemma add_task_half_open_first_conflict_witness :
  let s := schedule_of [task_at "a" "Mail" 9 0 10 0] in
  let task := task_at "b" "Code" 10 0 11 0 in
  Task.start_time task < Task.end_time task /\
  Forall (fun t => Task.start_time t < Task.end_time t) (ScheduleData.tasks s) /\
  exists s', Schedule.add_task s task = Ok s' /\
             ScheduleData.tasks s' = ScheduleData.tasks s ++ [task].
Proof.
  intros s task.
  assert (Hn : Task.start_time task < Task.end_time task) by (vm_compute; reflexivity).
  assert (Ho : Forall (fun t => Task.start_time t < Task.end_time t) (ScheduleData.tasks s))
    by (repeat constructor; vm_compute; reflexivity).
  split; [exact Hn|]. split; [exact Ho|].
  exact (add_task_half_open_first_conflict s task Hn Ho).
Defined.

(** C2 counterexample: a new task 09:00-10:00 does not overlap, in the
    half-open sense, an existing zero-length task at 10:00 (the graphical shell
    stores tasks without checking end > start), yet [add_task] rejects it. *)
Lemma add_task_zero_length_existing_rejects :
  let existing := task_at "z" "Standup" 10 0 10 0 in
  let task := task_at "n" "Plan" 9 0 10 0 in
  half_open_overlap task existing = false /\
  Schedule.add_task (schedule_of [existing]) task = Err "Time conflict with task: Standup"%string.
Proof. vm_compute. split; reflexivity. Qed.

(** ** C3 *)

(** A task that is [InProgress] or [Paused] has an actual start. *)
Definition started_inv (t : Task.Task) : bool :=
  match Task.status t with
  | InProgress | Paused => is_some (Task.actual_start_time t)
  | _ => true
  end.

Ltac step_cases t op :=
  destruct t as [? ? ? ? ? ad st ? ? ast ? ? p]; destruct op;
  destruct ad, st, ast, p; unfold step; unfold_task_ops; simpl.

Lemma step_started_inv (t : Task.Task) (op : TaskOp) :
  started_inv t = true -> started_inv (step t op) = true.
Proof. unfold started_inv. step_cases t op; congruence. Qed.

Lemma step_actual_start (t : Task.Task) (op : TaskOp) :
  started_inv t = true ->
  is_some (Task.actual_start_time (step t op)) =
  is_some (Task.actual_start_time t) || TaskStatus_eqb (Task.status (step t op)) InProgress.
Proof. unfold started_inv. step_cases t op; congruence. Qed.

Lemma step_actual_duration (t : Task.Task) (op : TaskOp) :
  is_some (Task.actual_duration_minutes (step t op)) =
  is_some (Task.actual_duration_minutes t) ||
  match op with
  | OpComplete _ => is_some (Task.actual_start_time t)
  | _ => false
  end.
Proof.
  step_cases t op; reflexivity.
Qed.

Lemma step_actual_start_some (t : Task.Task) (op : TaskOp) :
  is_some (Task.actual_start_time (step t op)) =
  is_some (Task.actual_start_time t) || match op with OpStart _ => true | _ => false end.
Proof. step_cases t op; reflexivity. Qed.

Lemma run_actual_start (t : Task.Task) (ops : list TaskOp) :
  started_inv t = true ->
  is_some (Task.actual_start_time (run t ops)) =
  is_some (Task.actual_start_time t) ||
  existsb (fun st => TaskStatus_eqb st InProgress) (statuses_along t ops).
Proof.
  unfold run. revert t. induction ops as [|op ops IH]; intros t Hinv; simpl.
  - destruct (is_some (Task.actual_start_time t)); reflexivity.
  - rewrite (IH (step t op) (step_started_inv t op Hinv)).
    rewrite (step_actual_start t op Hinv). symmetry. apply orb_assoc.
Qed.

Lemma run_actual_duration (t : Task.Task) (ops : list TaskOp) :
  is_some (Task.actual_duration_minutes (run t ops)) =
  is_some (Task.actual_duration_minutes t) ||
  completed_after_start (is_some (Task.actual_start_time t)) ops.
Proof.
  unfold run. revert t. induction ops as [|op ops IH]; intros t; simpl.
  - destruct (is_some (Task.actual_duration_minutes t)); reflexivity.
  - rewrite IH, step_actual_duration, step_actual_start_some.
    destruct op; simpl;
      destruct (is_some (Task.actual_duration_minutes t)), (is_some (Task.actual_start_time t));
      reflexivity.
Qed.

(** C3 (corrected): for a task driven from [Task::new] by any sequence of
    start/pause/resume/complete/skip, [actual_start_time] is present iff the
    status has at some point been [InProgress], and [actual_duration_minutes]
    is present iff a [complete] call came after a [start] call; it is not tied
    to the current status. *)
Theorem lifecycle_start_and_duration_presence (uuid title : string) (s e : Z) (ops : list TaskOp) :
  is_some (Task.actual_start_time (run (Task.new uuid title s e) ops)) =
    ever_in_progress (Task.new uuid title s e) ops /\
  is_some (Task.actual_duration_minutes (run (Task.new uuid title s e) ops)) =
    completed_after_start false ops.
Proof.
  split.
  - rewrite run_actual_start by reflexivity. reflexivity.
  - rewrite run_actual_duration. reflexivity.
Qed.

(** C3 counterexample: completing a never-started task gives status
    [Completed] with no actual duration; completing a started task and then
    skipping it gives status [Skipped] with an actual duration. *)
Lemma lifecycle_duration_not_tied_to_status :
  let t0 := task_at "c" "Read" 9 0 10 0 in
  let t1 := run t0 [OpComplete (600 * minute)] in
  let t2 := run t0 [OpStart (540 * minute); OpComplete (600 * minute); OpSkip] in
  Task.status t1 = Completed /\ Task.actual_duration_minutes t1 = None /\
  Task.status t2 = Skipped /\ Task.actual_duration_minutes t2 = Some 60.
Proof. vm_compute. repeat split. Qed.

(** ** C4 *)



(** ** C6 *)

Lemma fold_add_sum (l : list Z) (a : Z) : fold_left Z.add l a = a + Schedule.sum l.
Proof.
  unfold Schedule.sum. revert a. induction l as [|x l IH]; intros a; simpl; [lia|].
  rewrite (IH (a + x)), (IH x). lia.
Qed.

Lemma sum_cons (x : Z) (l : list Z) : Schedule.sum (x :: l) = x + Schedule.sum l.
Proof. unfold Schedule.sum at 1. simpl. apply fold_add_sum. Qed.

Lemma fold_add_task_step (tasks : list Task.Task) (acc : DailyAccountability.DailyAccountability) :
  let a := fold_left DailyAccountability.add_task_step tasks acc in
  DailyAccountability.total_planned a =
    DailyAccountability.total_planned acc + Schedule.sum (map Task.estimated_duration_minutes tasks) /\
  DailyAccountability.total_earned a =
    DailyAccountability.total_earned acc +
    Schedule.sum (map (fun t => TimeAccountability.earned_time (TimeAccountability.from_task t)) tasks) /\
  DailyAccountability.total_wasted a =
    DailyAccountability.total_wasted acc +
    Schedule.sum (map (fun t => TimeAccountability.wasted_time (TimeAccountability.from_task t)) tasks) /\
  DailyAccountability.total_bonus a =
    DailyAccountability.total_bonus acc +
    Schedule.sum (map (fun t => TimeAccountability.bonus_time (TimeAccountability.from_task t)) tasks) /\
  DailyAccountability.total_penalty a =
    DailyAccountability.total_penalty acc +
    Schedule.sum (map (fun t => TimeAccountability.penalty_time (TimeAccountability.from_task t)) tasks).
Proof.
  revert acc. induction tasks as [|t tasks IH]; intros acc; simpl.
  - unfold Schedule.sum; simpl. lia.
  - destruct (IH (DailyAccountability.add_task_step acc t)) as (H1 & H2 & H3 & H4 & H5).
    rewrite H1, H2, H3, H4, H5. rewrite !sum_cons. simpl. lia.
Qed.

(** C6: [DailyAccountability::from_tasks] sums the per-task earned, wasted,
    bonus and penalty minutes and the estimated durations; the efficiency score
    is (earned + bonus - penalty) / planned * 100 in [f64] (0 when nothing is
    planned); the grade follows the thresholds 95, 90, 80, 70, 60; and planned
    240, earned 200, bonus 30, penalty 10 scores about 91.67, grade "A". *)
Theorem from_tasks_totals_score_grade (date : Z) (tasks : list Task.Task) :
  let a := DailyAccountability.from_tasks date tasks in
  let score := DailyAccountability.efficiency_score a in
  let example := {| DailyAccountability.date := 0; DailyAccountability.total_planned := 240;
                    DailyAccountability.total_earned := 200; DailyAccountability.total_wasted := 0;
                    DailyAccountability.total_bonus := 30; DailyAccountability.total_penalty := 10 |} in
  DailyAccountability.total_planned a = Schedule.sum (map Task.estimated_duration_minutes tasks) /\
  DailyAccountability.total_earned a =
    Schedule.sum (map (fun t => TimeAccountability.earned_time (TimeAccountability.from_task t)) tasks) /\
  DailyAccountability.total_wasted a =
    Schedule.sum (map (fun t => TimeAccountability.wasted_time (TimeAccountability.from_task t)) tasks) /\
  DailyAccountability.total_bonus a =
    Schedule.sum (map (fun t => TimeAccountability.bonus_time (TimeAccountability.from_task t)) tasks) /\
  DailyAccountability.total_penalty a =
    Schedule.sum (map (fun t => TimeAccountability.penalty_time (TimeAccountability.from_task t)) tasks) /\
  score =
    (if DailyAccountability.total_planned a =? 0 then 0%float
     else PrimFloat.mul
            (PrimFloat.div
               (i64_to_f64 (DailyAccountability.total_earned a + DailyAccountability.total_bonus a
                            - DailyAccountability.total_penalty a))
               (i64_to_f64 (DailyAccountability.total_planned a)))
            100%float) /\
  DailyAccountability.grade a =
    (if PrimFloat.leb 95%float score then "A+"
     else if PrimFloat.leb 90%float score then "A"
     else if PrimFloat.leb 80%float score then "B"
     else if PrimFloat.leb 70%float score then "C"
     else if PrimFloat.leb 60%float score then "D"
     else "F")%string /\
  PrimFloat.ltb 91.5%float (DailyAccountability.efficiency_score example) = true /\
  PrimFloat.ltb (DailyAccountability.efficiency_score example) 91.75%float = true /\
  DailyAccountability.grade example = "A"%string.
Proof.
  intros a score example.
  destruct (fold_add_task_step tasks (DailyAccountability.new date)) as (H1 & H2 & H3 & H4 & H5).
  split; [exact H1|]. split; [exact H2|]. split; [exact H3|].
  split; [exact H4|]. split; [exact H5|].
  split; [reflexivity|]. split; [reflexivity|].
  split; [|split]; vm_compute; reflexivity.
Qed.

(** ** C7 *)

(** C7: [Schedule::total_wasted] at the clock reading [now] is the sum of the
    estimated durations of the tasks that are not [Completed] and whose planned
    end is before [now], whatever their other status; [calculate_stats] writes
    the cached completion rate, efficiency, earned, bonus and penalty, and
    leaves the cached wasted time as it was. *)
Theorem total_wasted_past_unfinished (now : Z) (s : ScheduleData.Schedule) :
  Schedule.total_wasted now s =
    Schedule.sum (map Task.estimated_duration_minutes
                      (filter (fun t => negb (TaskStatus_eqb (Task.status t) Completed)
                                        && (Task.end_time t <? now))
                              (ScheduleData.tasks s))) /\
  ScheduleData.completion_rate (Schedule.calculate_stats s) = Some (Schedule.completion_rate s) /\
  ScheduleData.efficiency_score (Schedule.calculate_stats s) = Some (Schedule.efficiency_score s) /\
  ScheduleData.total_earned (Schedule.calculate_stats s) = Some (Schedule.total_earned s) /\
  ScheduleData.total_bonus (Schedule.calculate_stats s) = Some (Schedule.total_bonus s) /\
  ScheduleData.total_penalty (Schedule.calculate_stats s) = Some (Schedule.total_penalty s) /\
  ScheduleData.total_wasted (Schedule.calculate_stats s) = ScheduleData.total_wasted s.
Proof.
  split.
  - unfold Schedule.total_wasted. f_equal. apply map_ext. intros t.
    destruct (TaskStatus_eqb (Task.status t) Skipped); reflexivity.
  - repeat split.
Qed.

(** ** C8 *)

Lemma update_best_monotone (now : Z) (rate : float) (s : StreakInfo.StreakInfo) :
  StreakInfo.best_streak s <= StreakInfo.best_streak (StreakInfo.update now rate s).
Proof.
  unfold StreakInfo.update. destruct (PrimFloat.leb 70 rate); simpl; [|lia].
  destruct (Z.ltb_spec (StreakInfo.best_streak s) (StreakInfo.current_streak s + 1)); lia.
Qed.

(** C8: [StreakInfo::update] with a rate of at least 70.0 increments the
    current streak and raises the best streak to it when exceeded, otherwise
    resets the current streak to 0; it stamps [last_update] with now; the best
    streak never decreases over any sequence of updates; rates 80, 90, 50 give
    current streaks 1, 2, 0 and a best streak of 2 after the reset. *)
Theorem streak_update_spec :
  (forall now rate s,
     let s' := StreakInfo.update now rate s in
     (if PrimFloat.leb 70%float rate
      then StreakInfo.current_streak s' = StreakInfo.current_streak s + 1 /\
           StreakInfo.best_streak s' = Z.max (StreakInfo.best_streak s) (StreakInfo.current_streak s + 1)
      else StreakInfo.current_streak s' = 0 /\ StreakInfo.best_streak s' = StreakInfo.best_streak s) /\
     StreakInfo.last_update s' = now) /\
  (forall s us, StreakInfo.best_streak s <= StreakInfo.best_streak (update_all s us)) /\
  (let s0 := StreakInfo.new 0 in
   let s1 := StreakInfo.update 1 80%float s0 in
   let s2 := StreakInfo.update 2 90%float s1 in
   let s3 := StreakInfo.update 3 50%float s2 in
   map StreakInfo.current_streak [s1; s2; s3] = [1; 2; 0] /\ StreakInfo.best_streak s3 = 2).
Proof.
  split; [|split].
  - intros now rate s. unfold StreakInfo.update.
    destruct (PrimFloat.leb 70 rate); simpl; [|split; [split|]; reflexivity].
    split; [split|]; [reflexivity| |reflexivity].
    destruct (Z.ltb_spec (StreakInfo.best_streak s) (StreakInfo.current_streak s + 1)); lia.
  - intros s us. unfold update_all. revert s. induction us as [|u us IH]; intros s; simpl; [lia|].
    specialize (IH (StreakInfo.update (fst u) (snd u) s)).
    pose proof (update_best_monotone (fst u) (snd u) s). lia.
  - vm_compute. split; reflexivity.
Qed.






(** ** C9 *)




(** * Further properties of the schedule, the task lifecycle and the commands *)

(** ** Conflict-free schedules *)

Lemma half_open_overlap_sym (a b : Task.Task) : half_open_overlap a b = half_open_overlap b a.
Proof. unfold half_open_overlap. apply andb_comm. Qed.

Lemma ForallOrdPairs_snoc {A} (R : A -> A -> Prop) (l : list A) (x : A) :
  ForallOrdPairs R l -> Forall (fun a => R a x) l -> ForallOrdPairs R (l ++ [x]).
Proof.
  induction 1 as [|a l Ha Hl IH]; intros Hx; simpl.
  - repeat constructor.
  - inversion Hx as [|? ? Hax Hlx]; subst. constructor.
    + apply Forall_app. split; [assumption | constructor; [assumption | constructor]].
    + apply IH. assumption.
Qed.

Lemma ForallOrdPairs_perm {A} (R : A -> A -> Prop) (Hsym : forall a b, R a b -> R b a)
    (l l' : list A) :
  Permutation l l' -> ForallOrdPairs R l -> ForallOrdPairs R l'.
Proof.
  induction 1 as [|x l l' Hp IH|x y l|l l' l'' H1 IH1 H2 IH2]; intros H.
  - constructor.
  - inversion H as [|? ? Hx Hl]; subst. constructor.
    + exact (Permutation_Forall Hp Hx).
    + apply IH. exact Hl.
  - inversion H as [|? ? Hy Hrest]; subst.
    inversion Hrest as [|? ? Hx Hl]; subst.
    inversion Hy as [|? ? Hyx Hyl]; subst.
    constructor.
    + constructor; [apply Hsym; exact Hyx | exact Hx].
    + constructor; assumption.
  - auto.
Qed.

Lemma add_task_ok (s s' : ScheduleData.Schedule) (t : Task.Task) :
  Schedule.add_task s t = Ok s' ->
  Schedule.first_conflict t (ScheduleData.tasks s) = None /\
  s' = Schedule.with_tasks s (ScheduleData.tasks s ++ [t]).
Proof.
  unfold Schedule.add_task. destruct (Schedule.first_conflict t (ScheduleData.tasks s)).
  - discriminate.
  - intros H. injection H as <-. split; reflexivity.
Qed.

Lemma add_task_ok_inv (s s' : ScheduleData.Schedule) (t : Task.Task) :
  well_formed t -> Forall well_formed (ScheduleData.tasks s) -> no_overlap (ScheduleData.tasks s) ->
  Schedule.add_task s t = Ok s' ->
  Forall well_formed (ScheduleData.tasks s') /\ no_overlap (ScheduleData.tasks s').
Proof.
  intros Ht Hs Hno Hadd. destruct (add_task_ok s s' t Hadd) as [Hc ->]. simpl.
  rewrite first_conflict_find in Hc by assumption.
  split.
  - apply Forall_app. split; [assumption | constructor; [assumption | constructor]].
  - apply ForallOrdPairs_snoc; [assumption|].
    apply Forall_forall. intros x Hx. rewrite half_open_overlap_sym.
    exact (find_none _ _ Hc x Hx).
Qed.

(** [Schedule::add_task]: from a schedule of nonempty, pairwise disjoint
    (half-open) tasks, any sequence of [add_task] calls with nonempty tasks,
    each refused one leaving the schedule as it was, keeps the tasks
    nonempty and pairwise disjoint. *)
Theorem add_all_no_overlap (s : ScheduleData.Schedule) (ts : list Task.Task)
    (Hts : Forall well_formed ts) (Hs : Forall well_formed (ScheduleData.tasks s))
    (Hno : no_overlap (ScheduleData.tasks s)) :
  Forall well_formed (ScheduleData.tasks (add_all s ts)) /\
  no_overlap (ScheduleData.tasks (add_all s ts)).
Proof.
  unfold add_all. revert s Hs Hno.
  induction Hts as [|t ts Ht Hts IH]; intros s Hs Hno; simpl; [split; assumption|].
  destruct (Schedule.add_task s t) as [s'|e] eqn:Hadd.
  - destruct (add_task_ok_inv s s' t Ht Hs Hno Hadd). apply IH; assumption.
  - apply IH; assumption.
Qed.

Lemma add_all_no_overlap_witness :
  Forall well_formed day_plan /\ Forall well_formed (ScheduleData.tasks (schedule_of [])) /\
  no_overlap (ScheduleData.tasks (schedule_of [])) /\
  (Forall well_formed (ScheduleData.tasks (add_all (schedule_of []) day_plan)) /\
   no_overlap (ScheduleData.tasks (add_all (schedule_of []) day_plan))).
Proof.
  assert (H1 : Forall well_formed day_plan)
    by (repeat constructor; unfold well_formed; vm_compute; reflexivity).
  assert (H2 : Forall well_formed (ScheduleData.tasks (schedule_of []))) by constructor.
  assert (H3 : no_overlap (ScheduleData.tasks (schedule_of []))) by constructor.
  split; [exact H1|]. split; [exact H2|]. split; [exact H3|].
  exact (add_all_no_overlap (schedule_of []) day_plan H1 H2 H3).
Defined.

(** ** Sorting by start time *)

Lemma insert_by_start_perm (t : Task.Task) (l : list Task.Task) :
  Permutation (t :: l) (Schedule.insert_by_start t l).
Proof.
  induction l as [|u l IH]; simpl; [reflexivity|].
  destruct (Task.start_time t <? Task.start_time u); [reflexivity|].
  etransitivity; [apply perm_swap | apply perm_skip; exact IH].
Qed.

Lemma insert_by_start_hd (u t : Task.Task) (l : list Task.Task) :
  start_le u t -> HdRel start_le u l -> HdRel start_le u (Schedule.insert_by_start t l).
Proof.
  intros H1 H2. destruct l as [|v l]; simpl; [constructor; exact H1|].
  destruct (Task.start_time t <? Task.start_time v); constructor; [exact H1|].
  inversion H2; assumption.
Qed.

Lemma insert_by_start_sorted (t : Task.Task) (l : list Task.Task) :
  Sorted start_le l -> Sorted start_le (Schedule.insert_by_start t l).
Proof.
  induction l as [|u l IH]; intros H; simpl; [repeat constructor|].
  apply Sorted_inv in H as [Hl Hu].
  destruct (Z.ltb_spec (Task.start_time t) (Task.start_time u)).
  - apply Sorted_cons; [apply Sorted_cons; assumption | constructor; unfold start_le; lia].
  - apply Sorted_cons; [apply IH; assumption|].
    apply insert_by_start_hd; [unfold start_le; lia | assumption].
Qed.

Lemma sort_fold_spec (l acc : list Task.Task) :
  Sorted start_le acc ->
  Sorted start_le (fold_left (fun acc t => Schedule.insert_by_start t acc) l acc) /\
  Permutation (l ++ acc) (fold_left (fun acc t => Schedule.insert_by_start t acc) l acc).
Proof.
  revert acc. induction l as [|a l IH]; intros acc Hacc; simpl; [split; [assumption | reflexivity]|].
  destruct (IH (Schedule.insert_by_start a acc) (insert_by_start_sorted a acc Hacc)) as [H1 H2].
  split; [exact H1|].
  etransitivity; [apply Permutation_middle|].
  etransitivity; [apply Permutation_app_head, insert_by_start_perm | exact H2].
Qed.

Lemma sort_by_time_spec (s : ScheduleData.Schedule) :
  Sorted start_le (ScheduleData.tasks (Schedule.sort_by_time s)) /\
  Permutation (ScheduleData.tasks s) (ScheduleData.tasks (Schedule.sort_by_time s)).
Proof.
  destruct (sort_fold_spec (ScheduleData.tasks s) [] (Sorted_nil _)) as [H1 H2].
  rewrite app_nil_r in H2. split; assumption.
Qed.

(** [Schedule::sort_by_time] leaves the tasks in nondecreasing start-time
    order, as a permutation of the tasks it had, and changes nothing else of
    the schedule. *)
Theorem sort_by_time_sorted_permutation (s : ScheduleData.Schedule) :
  let s' := Schedule.sort_by_time s in
  Sorted start_le (ScheduleData.tasks s') /\
  Permutation (ScheduleData.tasks s) (ScheduleData.tasks s') /\
  ScheduleData.date s' = ScheduleData.date s /\ ScheduleData.changes s' = ScheduleData.changes s /\
  ScheduleData.completion_rate s' = ScheduleData.completion_rate s /\
  ScheduleData.efficiency_score s' = ScheduleData.efficiency_score s /\
  ScheduleData.total_earned s' = ScheduleData.total_earned s /\
  ScheduleData.total_wasted s' = ScheduleData.total_wasted s /\
  ScheduleData.total_bonus s' = ScheduleData.total_bonus s /\
  ScheduleData.total_penalty s' = ScheduleData.total_penalty s.
Proof.
  destruct (sort_fold_spec (ScheduleData.tasks s) [] (Sorted_nil _)) as [H1 H2].
  rewrite app_nil_r in H2. repeat split; assumption.
Qed.

Lemma sorted_disjoint_gaps (l : list Task.Task) :
  Forall well_formed l -> no_overlap l -> Sorted start_le l -> Sorted ends_before l.
Proof.
  induction l as [|a l IH]; intros Hwf Hno Hs; [constructor|].
  inversion Hwf as [|? ? Ha Hwfl]; subst. inversion Hno as [|? ? Hra Hnol]; subst.
  apply Sorted_inv in Hs as [Hs Hhd].
  constructor; [apply IH; assumption|].
  destruct l as [|b l]; constructor.
  inversion Hhd as [|? ? Hab]; subst. inversion Hra as [|? ? Hov]; subst.
  inversion Hwfl as [|? ? Hb]; subst.
  unfold half_open_overlap, ends_before, start_le, well_formed in *.
  destruct (Z.ltb_spec (Task.start_time a) (Task.end_time b)),
           (Z.ltb_spec (Task.start_time b) (Task.end_time a)); simpl in Hov; try discriminate; lia.
Qed.

Lemma cli_add_task_inv (s s' : ScheduleData.Schedule) (t : Task.Task) :
  Forall well_formed (ScheduleData.tasks s) -> no_overlap (ScheduleData.tasks s) ->
  cli_add_task s t = Ok s' ->
  Forall well_formed (ScheduleData.tasks s') /\ no_overlap (ScheduleData.tasks s') /\
  Sorted start_le (ScheduleData.tasks s').
Proof.
  intros Hs Hno. unfold cli_add_task.
  destruct (Z.leb_spec (Task.end_time t) (Task.start_time t)) as [Hle|Hlt]; [discriminate|].
  destruct (Schedule.add_task s t) as [s1|e] eqn:Hadd; [|discriminate].
  intros H. injection H as <-.
  destruct (add_task_ok_inv s s1 t Hlt Hs Hno Hadd) as [Hwf1 Hno1].
  destruct (sort_by_time_spec s1) as [Hsort Hperm].
  split; [exact (Permutation_Forall Hperm Hwf1)|]. split; [|exact Hsort].
  apply (ForallOrdPairs_perm _ (fun a b H => eq_trans (half_open_overlap_sym b a) H) _ _ Hperm Hno1).
Qed.

(** The [sched add] command (end after start checked, [add_task], then
    [sort_by_time]): whatever tasks are added to a new schedule, refused ones
    included, the schedule keeps its tasks in start-time order with each one
    ending no later than the next one starts. *)
Theorem cli_add_keeps_schedule_ordered (date : Z) (ts : list Task.Task) :
  let s := cli_add_all (Schedule.new date) ts in
  Sorted start_le (ScheduleData.tasks s) /\ Sorted ends_before (ScheduleData.tasks s) /\
  Forall well_formed (ScheduleData.tasks s).
Proof.
  cbv zeta. unfold cli_add_all.
  assert (Hinv : forall s, Forall well_formed (ScheduleData.tasks s) -> no_overlap (ScheduleData.tasks s) ->
            Sorted start_le (ScheduleData.tasks s) ->
            let s' := fold_left (fun s t => match cli_add_task s t with Ok s' => s' | Err _ => s end) ts s in
            Forall well_formed (ScheduleData.tasks s') /\ no_overlap (ScheduleData.tasks s') /\
            Sorted start_le (ScheduleData.tasks s')).
  { induction ts as [|t ts IH]; intros s Hwf Hno Hs; simpl; [split; [|split]; assumption|].
    destruct (cli_add_task s t) as [s1|e] eqn:Hadd.
    - destruct (cli_add_task_inv s s1 t Hwf Hno Hadd) as (H1 & H2 & H3). apply IH; assumption.
    - apply IH; assumption. }
  destruct (Hinv (Schedule.new date) (Forall_nil _) (FOP_nil _) (Sorted_nil _)) as (H1 & H2 & H3).
  split; [exact H3|]. split; [apply sorted_disjoint_gaps; assumption | exact H1].
Qed.

(** ** Finding and removing tasks by id *)

Lemma find_split {A} (p : A -> bool) (l : list A) (x : A) :
  find p l = Some x ->
  exists pre post, l = pre ++ x :: post /\ Forall (fun u => p u = false) pre /\ p x = true.
Proof.
  induction l as [|a l IH]; simpl; [discriminate|].
  destruct (p a) eqn:Ha; intros H.
  - injection H as <-. exists [], l. repeat split; [constructor | exact Ha].
  - destruct (IH H) as (pre & post & -> & Hpre & Hx).
    exists (a :: pre), post. split; [reflexivity|]. split; [constructor; assumption | exact Hx].
Qed.

Lemma find_app_first {A} (p : A -> bool) (pre : list A) (x : A) (post : list A) :
  Forall (fun u => p u = false) pre -> p x = true -> find p (pre ++ x :: post) = Some x.
Proof.
  intros Hpre Hx. induction Hpre as [|u pre Hu Hpre IH]; simpl; [rewrite Hx; reflexivity|].
  rewrite Hu. exact IH.
Qed.

Lemma position_app {A} (p : A -> bool) (pre : list A) (x : A) (post : list A) :
  Forall (fun u => p u = false) pre -> p x = true ->
  Schedule.position p (pre ++ x :: post) = Some (List.length pre).
Proof.
  intros Hpre Hx. induction Hpre as [|u pre Hu Hpre IH]; simpl; [rewrite Hx; reflexivity|].
  rewrite Hu, IH. reflexivity.
Qed.

Lemma position_none {A} (p : A -> bool) (l : list A) :
  find p l = None -> Schedule.position p l = None.
Proof.
  induction l as [|a l IH]; simpl; [reflexivity|].
  destruct (p a); [discriminate|]. intros H. rewrite (IH H). reflexivity.
Qed.

Lemma remove_at_middle {A} (pre : list A) (x : A) (post : list A) :
  nth_error (pre ++ x :: post) (List.length pre) = Some x /\
  firstn (List.length pre) (pre ++ x :: post) ++ skipn (S (List.length pre)) (pre ++ x :: post) = pre ++ post.
Proof.
  induction pre as [|a pre IH]; [split; reflexivity|].
  destruct IH as [H1 H2]. split; [exact H1|].
  change (a :: (firstn (List.length pre) (pre ++ x :: post) ++ skipn (S (List.length pre)) (pre ++ x :: post))
          = a :: (pre ++ post)).
  rewrite H2. reflexivity.
Qed.

Lemma has_id_false (task_id : string) (u : Task.Task) :
  Schedule.has_id task_id u = false <-> Task.id u <> task_id.
Proof. unfold Schedule.has_id. apply String.eqb_neq. Qed.

Lemma remove_task_split (s : ScheduleData.Schedule) (task_id : string) (pre post : list Task.Task)
    (t : Task.Task) :
  ScheduleData.tasks s = pre ++ t :: post ->
  Forall (fun u => Schedule.has_id task_id u = false) pre -> Schedule.has_id task_id t = true ->
  Schedule.remove_task s task_id = (Schedule.with_tasks s (pre ++ post), Some t).
Proof.
  intros Hl Hpre Ht. unfold Schedule.remove_task. rewrite Hl, (position_app _ _ _ _ Hpre Ht).
  destruct (remove_at_middle pre t post) as [H1 H2]. rewrite H1, H2. reflexivity.
Qed.

(** [Schedule::remove_task] removes and returns the first task with the id,
    the one [find_task] returns, leaving the other tasks in their order; with
    no such task it returns [None] and leaves the schedule as it was. *)
Theorem remove_task_first_match (s : ScheduleData.Schedule) (task_id : string) :
  match Schedule.find_task s task_id with
  | None => Schedule.remove_task s task_id = (s, None)
  | Some t =>
      exists pre post, ScheduleData.tasks s = pre ++ t :: post /\
        Forall (fun u => Task.id u <> task_id) pre /\ Task.id t = task_id /\
        Schedule.remove_task s task_id = (Schedule.with_tasks s (pre ++ post), Some t)
  end.
Proof.
  unfold Schedule.find_task.
  destruct (find (Schedule.has_id task_id) (ScheduleData.tasks s)) as [t|] eqn:Hf.
  - destruct (find_split _ _ _ Hf) as (pre & post & Hl & Hpre & Ht).
    exists pre, post. split; [exact Hl|]. split.
    + eapply Forall_impl; [|exact Hpre]. intros u Hu. apply has_id_false. exact Hu.
    + split; [apply String.eqb_eq; exact Ht|]. apply remove_task_split; assumption.
  - unfold Schedule.remove_task. rewrite (position_none _ _ Hf). reflexivity.
Qed.

Lemma with_tasks_self (s : ScheduleData.Schedule) : Schedule.with_tasks s (ScheduleData.tasks s) = s.
Proof. destruct s. reflexivity. Qed.

(** [add_task], then [find_task] and [remove_task] with the id of the added
    task, when no task of the schedule had that id: [find_task] returns the
    added task, and [remove_task] returns it and gives back the schedule as
    it was before [add_task]. *)
Theorem add_find_remove_round_trip (s s' : ScheduleData.Schedule) (t : Task.Task)
    (Hadd : Schedule.add_task s t = Ok s')
    (Hfresh : Forall (fun u => Task.id u <> Task.id t) (ScheduleData.tasks s)) :
  Schedule.find_task s' (Task.id t) = Some t /\ Schedule.remove_task s' (Task.id t) = (s, Some t).
Proof.
  destruct (add_task_ok s s' t Hadd) as [_ ->].
  assert (Hpre : Forall (fun u => Schedule.has_id (Task.id t) u = false) (ScheduleData.tasks s)).
  { eapply Forall_impl; [|exact Hfresh]. intros u Hu. apply has_id_false. exact Hu. }
  assert (Ht : Schedule.has_id (Task.id t) t = true) by apply String.eqb_refl.
  split.
  - apply find_app_first; assumption.
  - rewrite (remove_task_split (Schedule.with_tasks s (ScheduleData.tasks s ++ [t])) _
               (ScheduleData.tasks s) [] t eq_refl Hpre Ht).
    rewrite app_nil_r. f_equal. exact (with_tasks_self s).
Qed.

Lemma add_find_remove_round_trip_witness :
  let s := schedule_of [task_at "a" "Mail" 9 0 10 0] in
  let t := task_at "b" "Code" 10 0 11 0 in
  Schedule.add_task s t = Ok (Schedule.with_tasks s (ScheduleData.tasks s ++ [t])) /\
  Forall (fun u => Task.id u <> Task.id t) (ScheduleData.tasks s) /\
  (Schedule.find_task (Schedule.with_tasks s (ScheduleData.tasks s ++ [t])) (Task.id t) = Some t /\
   Schedule.remove_task (Schedule.with_tasks s (ScheduleData.tasks s ++ [t])) (Task.id t) = (s, Some t)).
Proof.
  intros s t.
  assert (H1 : Schedule.add_task s t = Ok (Schedule.with_tasks s (ScheduleData.tasks s ++ [t])))
    by (vm_compute; reflexivity).
  assert (H2 : Forall (fun u => Task.id u <> Task.id t) (ScheduleData.tasks s))
    by (repeat constructor; apply has_id_false; vm_compute; reflexivity).
  split; [exact H1|]. split; [exact H2|].
  exact (add_find_remove_round_trip s _ t H1 H2).
Defined.

(** ** The next task *)

Lemma min_fold_first (seen rest : list Task.Task) (acc : Task.Task) :
  (exists pre post, seen = pre ++ acc :: post /\
     Forall (fun u => Task.start_time acc < Task.start_time u) pre /\
     Forall (fun u => Task.start_time acc <= Task.start_time u) seen) ->
  let m := fold_left (fun m y => if Task.start_time y <? Task.start_time m then y else m) rest acc in
  exists pre post, seen ++ rest = pre ++ m :: post /\
     Forall (fun u => Task.start_time m < Task.start_time u) pre /\
     Forall (fun u => Task.start_time m <= Task.start_time u) (seen ++ rest).
Proof.
  revert seen acc. induction rest as [|y rest IH]; intros seen acc (pre & post & Hseen & Hpre & Hall).
  - cbv zeta. simpl. rewrite app_nil_r. exists pre, post. auto.
  - cbv zeta. simpl. replace (seen ++ y :: rest) with ((seen ++ [y]) ++ rest)
      by (rewrite <- app_assoc; reflexivity).
    apply IH.
    destruct (Z.ltb_spec (Task.start_time y) (Task.start_time acc)) as [Hlt|Hge].
    + exists seen, []. split; [reflexivity|]. split.
      * eapply Forall_impl; [|exact Hall]. intros u Hu. simpl in Hu. lia.
      * apply Forall_app. split; [|constructor; [lia | constructor]].
        eapply Forall_impl; [|exact Hall]. intros u Hu. simpl in Hu. lia.
    + exists pre, (post ++ [y]). split; [rewrite Hseen, <- app_assoc; reflexivity|]. split; [exact Hpre|].
      apply Forall_app. split; [exact Hall | constructor; [lia | constructor]].
Qed.

Lemma get_next_task_some (s : ScheduleData.Schedule) (t : Task.Task) :
  Schedule.get_next_task s = Some t ->
  Task.status t = Pending /\ In t (ScheduleData.tasks s) /\
  (exists pre post,
     filter (fun u => TaskStatus_eqb (Task.status u) Pending) (ScheduleData.tasks s) = pre ++ t :: post /\
     Forall (fun u => Task.start_time t < Task.start_time u) pre) /\
  Forall (fun u => Task.status u = Pending -> Task.start_time t <= Task.start_time u) (ScheduleData.tasks s).
Proof.
  unfold Schedule.get_next_task, Schedule.min_by_start.
  destruct (filter (fun u => TaskStatus_eqb (Task.status u) Pending) (ScheduleData.tasks s))
    as [|x rest] eqn:Hf; [discriminate|].
  intros H. injection H as Hm.
  destruct (min_fold_first [x] rest x) as (pre & post & Heq & Hpre & Hall).
  { exists [], []. split; [reflexivity|]. split; [constructor|]. repeat constructor. lia. }
  rewrite Hm in Heq, Hpre, Hall. simpl in Heq.
  assert (Hin : In t (filter (fun u => TaskStatus_eqb (Task.status u) Pending) (ScheduleData.tasks s))).
  { rewrite Hf, Heq. apply in_or_app. right. left. reflexivity. }
  apply filter_In in Hin as [Hin Hst]. apply TaskStatus_eqb_eq in Hst.
  split; [exact Hst|]. split; [exact Hin|]. split; [exists pre, post; split; [exact Heq | exact Hpre]|].
  apply Forall_forall. intros u Hu Hpu.
  assert (Hu' : In u (filter (fun u => TaskStatus_eqb (Task.status u) Pending) (ScheduleData.tasks s))).
  { apply filter_In. split; [exact Hu | rewrite Hpu; reflexivity]. }
  rewrite Hf in Hu'. exact (proj1 (Forall_forall _ _) Hall u Hu').
Qed.

(** [Schedule::get_next_task] returns a [Pending] task of the schedule whose
    start time is the earliest among the [Pending] tasks, the first of them in
    list order on a tie; it returns [None] exactly when no task is [Pending]. *)
Theorem get_next_task_first_earliest (s : ScheduleData.Schedule) :
  match Schedule.get_next_task s with
  | None => Forall (fun t => Task.status t <> Pending) (ScheduleData.tasks s)
  | Some t =>
      Task.status t = Pending /\ In t (ScheduleData.tasks s) /\
      (exists pre post,
         filter (fun u => TaskStatus_eqb (Task.status u) Pending) (ScheduleData.tasks s) = pre ++ t :: post /\
         Forall (fun u => Task.start_time t < Task.start_time u) pre) /\
      Forall (fun u => Task.status u = Pending -> Task.start_time t <= Task.start_time u) (ScheduleData.tasks s)
  end.
Proof.
  destruct (Schedule.get_next_task s) as [t|] eqn:Hn; [exact (get_next_task_some s t Hn)|].
  unfold Schedule.get_next_task, Schedule.min_by_start in Hn.
  destruct (filter (fun u => TaskStatus_eqb (Task.status u) Pending) (ScheduleData.tasks s))
    as [|x rest] eqn:Hf; [|discriminate].
  apply Forall_forall. intros t Ht Hp.
  assert (Hin : In t (filter (fun u => TaskStatus_eqb (Task.status u) Pending) (ScheduleData.tasks s))).
  { apply filter_In. split; [exact Ht | rewrite Hp; reflexivity]. }
  rewrite Hf in Hin. exact Hin.
Qed.

(** ** The plan and the Pomodoro slice along the task lifecycle *)

Lemma step_plan_fields (t : Task.Task) (op : TaskOp) : plan_fields (step t op) = plan_fields t.
Proof. unfold plan_fields. step_cases t op; reflexivity. Qed.

(** No lifecycle call ([start], [pause], [resume], [complete], [skip]) ever
    changes the planned fields of a task: id, title, planned start and end,
    estimated duration, tags, notes and custom slice length. *)
Theorem lifecycle_keeps_plan (t : Task.Task) (ops : list TaskOp) :
  plan_fields (run t ops) = plan_fields t.
Proof.
  unfold run. revert t. induction ops as [|op ops IH]; intros t; simpl; [reflexivity|].
  rewrite IH. apply step_plan_fields.
Qed.

Lemma step_slice_inv (t : Task.Task) (op : TaskOp) :
  slice_inv t = true -> slice_inv (step t op) = true.
Proof.
  unfold slice_inv. intros H. step_cases t op; try reflexivity; try discriminate; exact H.
Qed.

Lemma run_slice_inv (t : Task.Task) (ops : list TaskOp) :
  slice_inv t = true -> slice_inv (run t ops) = true.
Proof.
  unfold run. revert t. induction ops as [|op ops IH]; intros t H; simpl; [exact H|].
  apply IH, step_slice_inv, H.
Qed.

(** Along any sequence of lifecycle calls from [Task::new], at any clock
    reading: an [InProgress] task has a Pomodoro session whose
    [elapsed_minutes] and [remaining_minutes] are present, a [Paused] task has
    one where both are [None]. *)
Theorem lifecycle_slice_state (uuid title : string) (s e now : Z) (ops : list TaskOp) :
  let t := run (Task.new uuid title s e) ops in
  match Task.status t with
  | InProgress => exists p, Task.pomodoro t = Some p /\
      is_some (Pomodoro.elapsed_minutes now p) = true /\ is_some (Pomodoro.remaining_minutes now p) = true
  | Paused => exists p, Task.pomodoro t = Some p /\
      Pomodoro.elapsed_minutes now p = None /\ Pomodoro.remaining_minutes now p = None
  | _ => True
  end.
Proof.
  cbv zeta. pose proof (run_slice_inv (Task.new uuid title s e) ops eq_refl) as H.
  unfold slice_inv in H.
  destruct (Task.status (run (Task.new uuid title s e) ops));
    destruct (Task.pomodoro (run (Task.new uuid title s e) ops)) as [p|]; try discriminate; try exact I;
    exists p; split; try reflexivity;
    unfold Pomodoro.remaining_minutes, Pomodoro.elapsed_minutes;
    destruct (Pomodoro.current_start p); try discriminate; split; reflexivity.
Qed.

(** ** Pomodoro counters *)

Lemma iter_complete_fields (k : nat) (s : Pomodoro.PomodoroSession) :
  let s' := Nat.iter k Pomodoro.complete_pomodoro s in
  Pomodoro.completed_pomodoros s' = Pomodoro.completed_pomodoros s + Z.of_nat k /\
  Pomodoro.total_pomodoros s' = Pomodoro.total_pomodoros s /\
  Pomodoro.pomodoro_duration s' = Pomodoro.pomodoro_duration s /\
  Pomodoro.short_break s' = Pomodoro.short_break s /\ Pomodoro.long_break s' = Pomodoro.long_break s.
Proof.
  induction k as [|k IH]; cbv zeta; simpl; [repeat split; lia|].
  destruct IH as (H1 & H2 & H3 & H4 & H5). rewrite H1, H2, H3, H4, H5. repeat split; lia.
Qed.

(** [complete_pomodoro] called [k] times on a session: [k] more completed
    slices and no running one (for [k] at least 1), the total unchanged;
    [is_complete] holds exactly once completed + k reaches the total; and the
    break announced by [next_break_duration] repeats every four completions. *)
Theorem pomodoro_completions (s : Pomodoro.PomodoroSession) (k : nat) :
  let s' := Nat.iter k Pomodoro.complete_pomodoro s in
  Pomodoro.completed_pomodoros s' = Pomodoro.completed_pomodoros s + Z.of_nat k /\
  Pomodoro.total_pomodoros s' = Pomodoro.total_pomodoros s /\
  Pomodoro.current_start (Nat.iter (S k) Pomodoro.complete_pomodoro s) = None /\
  Pomodoro.is_complete s' = (Pomodoro.total_pomodoros s <=? Pomodoro.completed_pomodoros s + Z.of_nat k) /\
  Pomodoro.next_break_duration (Nat.iter (4 + k) Pomodoro.complete_pomodoro s) =
    Pomodoro.next_break_duration s'.
Proof.
  cbv zeta. destruct (iter_complete_fields k s) as (H1 & H2 & H3 & H4 & H5).
  destruct (iter_complete_fields (4 + k) s) as (G1 & G2 & G3 & G4 & G5).
  split; [exact H1|]. split; [exact H2|]. split; [reflexivity|].
  split; [unfold Pomodoro.is_complete; rewrite H1, H2; reflexivity|].
  unfold Pomodoro.next_break_duration. rewrite G1, G4, G5, H1, H4, H5.
  replace (Pomodoro.completed_pomodoros s + Z.of_nat (4 + k) + 1)
    with (Pomodoro.completed_pomodoros s + Z.of_nat k + 1 + 1 * 4) by lia.
  rewrite Z_mod_plus_full. reflexivity.
Qed.

(** For a running slice started at [st] and a clock reading [now] not before
    it, with a nonnegative slice length: [elapsed_minutes] is a nonnegative
    count, [remaining_minutes] lies between 0 and the slice length, and the
    two add up to the slice length until the slice has run out. *)
Theorem remaining_minutes_bounds (now st : Z) (s : Pomodoro.PomodoroSession)
    (Hst : Pomodoro.current_start s = Some st) (Hnow : st <= now)
    (Hd : 0 <= Pomodoro.pomodoro_duration s) :
  exists e r, Pomodoro.elapsed_minutes now s = Some e /\ Pomodoro.remaining_minutes now s = Some r /\
    0 <= e /\ 0 <= r <= Pomodoro.pomodoro_duration s /\
    (e <= Pomodoro.pomodoro_duration s -> e + r = Pomodoro.pomodoro_duration s).
Proof.
  unfold Pomodoro.remaining_minutes, Pomodoro.elapsed_minutes. rewrite Hst. simpl.
  assert (He : 0 <= num_minutes (now - st)).
  { unfold num_minutes. apply Z.quot_pos; [apply Z.quot_pos|]; lia. }
  exists (num_minutes (now - st)), (Z.max (Pomodoro.pomodoro_duration s - num_minutes (now - st)) 0).
  repeat split; lia.
Qed.

Lemma remaining_minutes_bounds_witness :
  let s := Pomodoro.start_pomodoro 0 (Pomodoro.new 60) in
  Pomodoro.current_start s = Some 0 /\ 0 <= 10 * minute /\ 0 <= Pomodoro.pomodoro_duration s /\
  exists e r, Pomodoro.elapsed_minutes (10 * minute) s = Some e /\
    Pomodoro.remaining_minutes (10 * minute) s = Some r /\
    0 <= e /\ 0 <= r <= Pomodoro.pomodoro_duration s /\
    (e <= Pomodoro.pomodoro_duration s -> e + r = Pomodoro.pomodoro_duration s).
Proof.
  intros s.
  assert (H1 : Pomodoro.current_start s = Some 0) by reflexivity.
  assert (H2 : 0 <= 10 * minute) by (unfold minute; lia).
  assert (H3 : 0 <= Pomodoro.pomodoro_duration s) by (vm_compute; discriminate).
  split; [exact H1|]. split; [exact H2|]. split; [exact H3|].
  exact (remaining_minutes_bounds (10 * minute) 0 s H1 H2 H3).
Defined.

(** ** Schedule totals against the daily accountability *)

Lemma sum_app (l1 l2 : list Z) : Schedule.sum (l1 ++ l2) = Schedule.sum l1 + Schedule.sum l2.
Proof. unfold Schedule.sum at 1. rewrite fold_left_app, (fold_add_sum l2). reflexivity. Qed.

Lemma sum_nil : Schedule.sum [] = 0.
Proof. reflexivity. Qed.

(** [Schedule::total_bonus] and [Schedule::total_penalty] are the bonus and
    penalty totals of [DailyAccountability::from_tasks] over the same tasks:
    a completed task counts only when it has an actual duration, as in
    [TimeAccountability::from_task]. *)
Theorem schedule_bonus_penalty_match_daily (date : Z) (s : ScheduleData.Schedule) :
  Schedule.total_bonus s = DailyAccountability.total_bonus (DailyAccountability.from_tasks date (ScheduleData.tasks s)) /\
  Schedule.total_penalty s = DailyAccountability.total_penalty (DailyAccountability.from_tasks date (ScheduleData.tasks s)).
Proof.
  destruct (fold_add_task_step (ScheduleData.tasks s) (DailyAccountability.new date)) as (_ & _ & _ & H4 & H5).
  unfold DailyAccountability.from_tasks. rewrite H4, H5. clear H4 H5. simpl DailyAccountability.total_bonus.
  simpl DailyAccountability.total_penalty.
  unfold Schedule.total_bonus, Schedule.total_penalty.
  induction (ScheduleData.tasks s) as [|t l IH]; [split; reflexivity|].
  destruct IH as [IH1 IH2]. cbn [map filter flat_map]. rewrite !sum_cons.
  destruct (Schedule.is_completed t) eqn:Hc; cbn [flat_map]; rewrite ?sum_app, IH1, IH2;
    unfold Schedule.is_completed in Hc; unfold TimeAccountability.from_task;
    destruct (Task.status t); cbn [TaskStatus_eqb] in Hc; try discriminate;
    try (destruct (Task.actual_duration_minutes t) as [a|]);
    cbn [TimeAccountability.bonus_time TimeAccountability.penalty_time]; split; z_cases.
Qed.

(** [Schedule::total_earned] is the earned total of
    [DailyAccountability::from_tasks] over the same tasks as long as no
    completed task ran over by more than its estimate (its actual duration at
    most twice the estimate): the clamp at 0 of the one and the [i64]
    saturation of the other then agree. *)
Theorem schedule_earned_matches_daily (date : Z) (s : ScheduleData.Schedule)
    (H : Forall (fun t => Task.status t = Completed -> forall a, Task.actual_duration_minutes t = Some a ->
                          a <= 2 * Task.estimated_duration_minutes t /\
                          Task.estimated_duration_minutes t <= i64_max)
                (ScheduleData.tasks s)) :
  Schedule.total_earned s = DailyAccountability.total_earned (DailyAccountability.from_tasks date (ScheduleData.tasks s)).
Proof.
  destruct (fold_add_task_step (ScheduleData.tasks s) (DailyAccountability.new date)) as (_ & H2 & _).
  unfold DailyAccountability.from_tasks. rewrite H2. clear H2. simpl DailyAccountability.total_earned.
  unfold Schedule.total_earned.
  assert (Hmin : i64_min < 0) by reflexivity.
  revert H. generalize (ScheduleData.tasks s) as l. intros l H.
  induction H as [|t l Ht Hl IH]; [reflexivity|].
  cbn [map filter]. rewrite sum_cons.
  destruct (Schedule.is_completed t) eqn:Hc; cbn [map]; rewrite ?sum_cons, IH;
    unfold Schedule.is_completed in Hc; unfold TimeAccountability.from_task;
    destruct (Task.status t) eqn:Hs; cbn [TaskStatus_eqb] in Hc; try discriminate;
    cbn [TimeAccountability.earned_time]; try lia.
  destruct (Task.actual_duration_minutes t) as [a|] eqn:Ha; cbn [unwrap_or TimeAccountability.earned_time].
  - destruct (Ht eq_refl a eq_refl) as [Ha1 Ha2]. unfold saturating_sub. z_cases.
  - rewrite Z.leb_refl. lia.
Qed.

Lemma schedule_earned_matches_daily_witness :
  Forall (fun t => Task.status t = Completed -> forall a, Task.actual_duration_minutes t = Some a ->
                   a <= 2 * Task.estimated_duration_minutes t /\ Task.estimated_duration_minutes t <= i64_max)
         (ScheduleData.tasks (schedule_of [slow_mail])) /\
  Schedule.total_earned (schedule_of [slow_mail]) =
    DailyAccountability.total_earned (DailyAccountability.from_tasks 0 (ScheduleData.tasks (schedule_of [slow_mail]))).
Proof.
  assert (H : Forall (fun t => Task.status t = Completed -> forall a, Task.actual_duration_minutes t = Some a ->
                        a <= 2 * Task.estimated_duration_minutes t /\ Task.estimated_duration_minutes t <= i64_max)
                     (ScheduleData.tasks (schedule_of [slow_mail]))).
  { constructor; [|constructor]. intros _ a Ha. vm_compute in Ha. injection Ha as <-.
    split; vm_compute; discriminate. }
  split; [exact H|]. exact (schedule_earned_matches_daily 0 (schedule_of [slow_mail]) H).
Defined.

(** The net earned time of the day ([DailyAccountability::net_earned]) is the
    sum over the tasks of their own net earned time
    ([TimeAccountability::net_earned] of [from_task]). *)
Theorem daily_net_earned_sum (date : Z) (tasks : list Task.Task) :
  DailyAccountability.net_earned (DailyAccountability.from_tasks date tasks) =
  Schedule.sum (map (fun t => TimeAccountability.net_earned (TimeAccountability.from_task t)) tasks).
Proof.
  destruct (fold_add_task_step tasks (DailyAccountability.new date)) as (_ & H2 & _ & H4 & H5).
  unfold DailyAccountability.net_earned, DailyAccountability.from_tasks. rewrite H2, H4, H5. clear.
  simpl DailyAccountability.total_earned. simpl DailyAccountability.total_bonus.
  simpl DailyAccountability.total_penalty.
  induction tasks as [|t l IH]; [reflexivity|].
  cbn [map]. rewrite !sum_cons. unfold TimeAccountability.net_earned at 1. lia.
Qed.

(** [Schedule::calculate_stats] only reads the tasks and only writes the
    cached statistics: running it twice gives the schedule of running it once,
    and the tasks, date and change log are left as they were. *)
Theorem calculate_stats_idempotent (s : ScheduleData.Schedule) :
  Schedule.calculate_stats (Schedule.calculate_stats s) = Schedule.calculate_stats s /\
  ScheduleData.tasks (Schedule.calculate_stats s) = ScheduleData.tasks s /\
  ScheduleData.date (Schedule.calculate_stats s) = ScheduleData.date s /\
  ScheduleData.changes (Schedule.calculate_stats s) = ScheduleData.changes s.
Proof. repeat split. Qed.

(** ** Streaks *)

Lemma streak_step_inv (s : StreakInfo.StreakInfo) (ev : StreakEvent) :
  0 <= StreakInfo.current_streak s <= StreakInfo.best_streak s ->
  0 <= StreakInfo.current_streak (streak_step s ev) <= StreakInfo.best_streak (streak_step s ev).
Proof.
  intros H. destruct ev as [now rate|now]; simpl; [|lia].
  unfold StreakInfo.update. destruct (PrimFloat.leb 70 rate); simpl; [|lia].
  destruct (Z.ltb_spec (StreakInfo.best_streak s) (StreakInfo.current_streak s + 1)); simpl; lia.
Qed.

(** From [StreakInfo::new], over any sequence of [update] and [reset] calls,
    the current streak stays between 0 and the best streak. *)
Theorem streak_current_le_best (now0 : Z) (evs : list StreakEvent) :
  let s := fold_left streak_step evs (StreakInfo.new now0) in
  0 <= StreakInfo.current_streak s <= StreakInfo.best_streak s.
Proof.
  cbv zeta.
  assert (H0 : 0 <= StreakInfo.current_streak (StreakInfo.new now0) <= StreakInfo.best_streak (StreakInfo.new now0))
    by (simpl; lia).
  revert H0. generalize (StreakInfo.new now0) as s.
  induction evs as [|ev evs IH]; intros s H; simpl; [exact H|].
  apply IH, streak_step_inv, H.
Qed.

(** ** Command-line flows on the current and the next task *)

Lemma apply_first_app (p : Task.Task -> bool) (f : Task.Task -> Task.Task)
    (pre : list Task.Task) (x : Task.Task) (post : list Task.Task) :
  Forall (fun u => p u = false) pre -> p x = true ->
  Schedule.apply_first p f (pre ++ x :: post) = Some (pre ++ f x :: post).
Proof.
  intros Hpre Hx. induction Hpre as [|u pre Hu Hpre IH]; simpl; [rewrite Hx; reflexivity|].
  rewrite Hu, IH. reflexivity.
Qed.

Lemma nodup_prefix_ids (pre : list Task.Task) (x : Task.Task) (post : list Task.Task) :
  NoDup (map Task.id (pre ++ x :: post)) ->
  Forall (fun u => Schedule.has_id (Task.id x) u = false) pre.
Proof.
  intros H. rewrite map_app in H. simpl in H. apply NoDup_remove_2 in H.
  apply Forall_forall. intros u Hu. apply has_id_false. intros Heq. apply H.
  apply in_or_app. left. rewrite <- Heq. apply in_map. exact Hu.
Qed.

Lemma on_current_split (s : ScheduleData.Schedule) (cur : Task.Task)
    (Hids : NoDup (map Task.id (ScheduleData.tasks s))) :
  Schedule.get_current_task s = Some cur ->
  exists pre post, ScheduleData.tasks s = pre ++ cur :: post /\
    Forall (fun u => Task.status u <> InProgress) pre /\ Task.status cur = InProgress /\
    forall f, on_current_task f s =
      match f cur with Ok c' => Ok (Schedule.with_tasks s (pre ++ c' :: post)) | Err e => Err e end.
Proof.
  intros Hcur. pose proof Hcur as Hf. unfold Schedule.get_current_task in Hf.
  destruct (find_split _ _ _ Hf) as (pre & post & Hl & Hpre & Hst).
  exists pre, post. split; [exact Hl|]. split.
  { eapply Forall_impl; [|exact Hpre]. intros u Hu Heq. cbv beta in Hu. rewrite Heq in Hu. discriminate. }
  split; [apply TaskStatus_eqb_eq; exact Hst|].
  rewrite Hl in Hids. pose proof (nodup_prefix_ids _ _ _ Hids) as Hid.
  assert (Hx : Schedule.has_id (Task.id cur) cur = true) by apply String.eqb_refl.
  intros f. unfold on_current_task, Schedule.modify_task. rewrite Hcur, Hl.
  rewrite (find_app_first _ _ _ _ Hid Hx).
  destruct (f cur) as [c'|e]; [|reflexivity].
  rewrite (apply_first_app _ _ _ _ _ Hid Hx). reflexivity.
Qed.

(** [pause_task] and [complete_task] of the command line, when the task ids
    of the schedule are distinct: with no [InProgress] task both fail with
    "No task is currently in progress"; otherwise both act on the first
    [InProgress] task in list order, in place, and on no other task. *)
Theorem cli_pause_complete_current (now : Z) (s : ScheduleData.Schedule)
    (Hids : NoDup (map Task.id (ScheduleData.tasks s))) :
  match Schedule.get_current_task s with
  | None => cli_pause_task s = Err "No task is currently in progress"%string /\
            cli_complete_task now s = Err "No task is currently in progress"%string
  | Some cur =>
      exists pre post, ScheduleData.tasks s = pre ++ cur :: post /\
        Forall (fun u => Task.status u <> InProgress) pre /\ Task.status cur = InProgress /\
        cli_pause_task s = Ok (Schedule.with_tasks s (pre ++ Task.pause cur :: post)) /\
        Task.status (Task.pause cur) = Paused /\
        cli_complete_task now s = Ok (Schedule.with_tasks s (pre ++ Task.complete now cur :: post))
  end.
Proof.
  destruct (Schedule.get_current_task s) as [cur|] eqn:Hcur.
  - destruct (on_current_split s cur Hids Hcur) as (pre & post & Hl & Hpre & Hst & Hf).
    exists pre, post. split; [exact Hl|]. split; [exact Hpre|]. split; [exact Hst|].
    split; [unfold cli_pause_task; rewrite Hf; reflexivity|].
    split; [unfold Task.pause; rewrite Hst; reflexivity|].
    unfold cli_complete_task. rewrite Hf. reflexivity.
  - unfold cli_pause_task, cli_complete_task, on_current_task. rewrite Hcur. split; reflexivity.
Qed.

Lemma busy_day_ids : NoDup (map Task.id (ScheduleData.tasks busy_day)).
Proof. vm_compute. repeat constructor; simpl; intuition discriminate. Defined.

Lemma cli_pause_complete_current_witness :
  NoDup (map Task.id (ScheduleData.tasks busy_day)) /\
  match Schedule.get_current_task busy_day with
  | None => cli_pause_task busy_day = Err "No task is currently in progress"%string /\
            cli_complete_task (630 * minute) busy_day = Err "No task is currently in progress"%string
  | Some cur =>
      exists pre post, ScheduleData.tasks busy_day = pre ++ cur :: post /\
        Forall (fun u => Task.status u <> InProgress) pre /\ Task.status cur = InProgress /\
        cli_pause_task busy_day = Ok (Schedule.with_tasks busy_day (pre ++ Task.pause cur :: post)) /\
        Task.status (Task.pause cur) = Paused /\
        cli_complete_task (630 * minute) busy_day =
          Ok (Schedule.with_tasks busy_day (pre ++ Task.complete (630 * minute) cur :: post))
  end.
Proof.
  split; [exact busy_day_ids|]. exact (cli_pause_complete_current (630 * minute) busy_day busy_day_ids).
Defined.

(** [start_task] of the command line without an id, when the task ids of the
    schedule are distinct: it starts, in place, the task [get_next_task]
    returns (the earliest [Pending] task) and no other, and fails with
    "No pending tasks" when no task is [Pending]. *)
Theorem cli_start_next_pending (now : Z) (s : ScheduleData.Schedule)
    (Hids : NoDup (map Task.id (ScheduleData.tasks s))) :
  match Schedule.get_next_task s with
  | None => cli_start_task now None s = Err "No pending tasks"%string
  | Some t =>
      exists pre post, ScheduleData.tasks s = pre ++ t :: post /\
        cli_start_task now None s = Ok (Schedule.with_tasks s (pre ++ Task.start now t :: post)) /\
        Task.status (Task.start now t) = InProgress
  end.
Proof.
  destruct (Schedule.get_next_task s) as [t|] eqn:Hn.
  - destruct (get_next_task_some s t Hn) as (_ & Hin & _).
    destruct (in_split _ _ Hin) as (pre & post & Hl).
    exists pre, post. split; [exact Hl|]. split; [|reflexivity].
    rewrite Hl in Hids. pose proof (nodup_prefix_ids _ _ _ Hids) as Hid.
    unfold cli_start_task, Schedule.modify_task. rewrite Hn, Hl.
    rewrite (apply_first_app _ _ _ _ _ Hid (String.eqb_refl _)). reflexivity.
  - unfold cli_start_task. rewrite Hn. reflexivity.
Qed.

Lemma cli_start_next_pending_witness :
  NoDup (map Task.id (ScheduleData.tasks busy_day)) /\
  match Schedule.get_next_task busy_day with
  | None => cli_start_task (540 * minute) None busy_day = Err "No pending tasks"%string
  | Some t =>
      exists pre post, ScheduleData.tasks busy_day = pre ++ t :: post /\
        cli_start_task (540 * minute) None busy_day =
          Ok (Schedule.with_tasks busy_day (pre ++ Task.start (540 * minute) t :: post)) /\
        Task.status (Task.start (540 * minute) t) = InProgress
  end.
Proof.
  split; [exact busy_day_ids|]. exact (cli_start_next_pending (540 * minute) busy_day busy_day_ids).
Defined.

(** [pomodoro complete] of the command line, when the task ids of the
    schedule are distinct: it counts one more completed slice on the session
    of the current task and stops its slice, while the task stays
    [InProgress] and stays the current task, now with no running slice
    ([elapsed_minutes] is [None]); it fails when no task is in progress or
    the current task has no session. *)
Theorem cli_pomodoro_complete_stops_slice (now : Z) (s : ScheduleData.Schedule)
    (Hids : NoDup (map Task.id (ScheduleData.tasks s))) :
  match Schedule.get_current_task s with
  | None => cli_pomodoro_complete s = Err "No task is currently in progress"%string
  | Some cur =>
      match Task.pomodoro cur with
      | None => cli_pomodoro_complete s = Err "No Pomodoro session active"%string
      | Some p =>
          exists pre post cur', ScheduleData.tasks s = pre ++ cur :: post /\
            cli_pomodoro_complete s = Ok (Schedule.with_tasks s (pre ++ cur' :: post)) /\
            Task.status cur' = InProgress /\
            Task.pomodoro cur' = Some (Pomodoro.complete_pomodoro p) /\
            Pomodoro.completed_pomodoros (Pomodoro.complete_pomodoro p) = Pomodoro.completed_pomodoros p + 1 /\
            Pomodoro.elapsed_minutes now (Pomodoro.complete_pomodoro p) = None /\
            Schedule.get_current_task (Schedule.with_tasks s (pre ++ cur' :: post)) = Some cur'
      end
  end.
Proof.
  destruct (Schedule.get_current_task s) as [cur|] eqn:Hcur.
  - destruct (on_current_split s cur Hids Hcur) as (pre & post & Hl & Hpre & Hst & Hf).
    unfold cli_pomodoro_complete. rewrite Hf.
    destruct (Task.pomodoro cur) as [p|] eqn:Hp; [|reflexivity].
    eexists pre, post, _. split; [exact Hl|]. split; [reflexivity|].
    split; [exact Hst|]. split; [reflexivity|]. split; [reflexivity|]. split; [reflexivity|].
    unfold Schedule.get_current_task. apply find_app_first.
    + eapply Forall_impl; [|exact Hpre]. intros u Hu. cbv beta in Hu |- *.
      destruct (TaskStatus_eqb (Task.status u) InProgress) eqn:He; [|reflexivity].
      apply TaskStatus_eqb_eq in He. contradiction.
    + simpl. rewrite Hst. reflexivity.
  - unfold cli_pomodoro_complete, on_current_task. rewrite Hcur. reflexivity.
Qed.

Lemma cli_pomodoro_complete_stops_slice_witness :
  NoDup (map Task.id (ScheduleData.tasks busy_day)) /\
  match Schedule.get_current_task busy_day with
  | None => cli_pomodoro_complete busy_day = Err "No task is currently in progress"%string
  | Some cur =>
      match Task.pomodoro cur with
      | None => cli_pomodoro_complete busy_day = Err "No Pomodoro session active"%string
      | Some p =>
          exists pre post cur', ScheduleData.tasks busy_day = pre ++ cur :: post /\
            cli_pomodoro_complete busy_day = Ok (Schedule.with_tasks busy_day (pre ++ cur' :: post)) /\
            Task.status cur' = InProgress /\
            Task.pomodoro cur' = Some (Pomodoro.complete_pomodoro p) /\
            Pomodoro.completed_pomodoros (Pomodoro.complete_pomodoro p) = Pomodoro.completed_pomodoros p + 1 /\
            Pomodoro.elapsed_minutes (625 * minute) (Pomodoro.complete_pomodoro p) = None /\
            Schedule.get_current_task (Schedule.with_tasks busy_day (pre ++ cur' :: post)) = Some cur'
      end
  end.
Proof.
  split; [exact busy_day_ids|].
  exact (cli_pomodoro_complete_stops_slice (625 * minute) busy_day busy_day_ids).
Defined.
